(** * filterdns-client: a shallow embedding of the daemon core

    Package [config] is module [Config]; package [dns] is the modules
    [Forwarder], [Cache], [DoH] and [Proxy], one per source file, over the
    messages of [Msg]; package [system] is [System] and package [daemon] is
    [Daemon].  Go strings are byte strings ([string]); [time.Time] and
    [time.Duration] are integers counting nanoseconds; Go maps are
    [gmap]s; code that talks to the operating system threads an explicit
    [World] and returns the events it caused.  Libraries, tools and the
    network are parameters ([DoH.Net], [System.Host]); module [Scenarios]
    holds the concrete ones the examples run on. *)

From Stdlib Require Import ZArith Ascii String List Lia Bool.
From stdpp Require Import base option list gmap strings fin_maps pretty.

Local Open Scope string_scope.
Local Open Scope Z_scope.

(* ===================================================================== *)
(** ** Go's [strings] package, on byte strings *)
(* ===================================================================== *)

Module GoStrings.

(** [s[n:]] *)
Fixpoint drop (n : nat) (s : string) : string :=
  match n, s with
  | O, _ => s
  | S n', String _ r => drop n' r
  | S _, EmptyString => EmptyString
  end.

(** [s[:n]] *)
Fixpoint take (n : nat) (s : string) : string :=
  match n, s with
  | O, _ => EmptyString
  | S n', String c r => String c (take n' r)
  | S _, EmptyString => EmptyString
  end.

(** [strings.HasPrefix(s, prefix)]:
    [len(s) >= len(prefix) && s[:len(prefix)] == prefix]. *)
Definition HasPrefix (s prefix : string) : bool :=
  (String.length prefix <=? String.length s)%nat
  && String.eqb (take (String.length prefix) s) prefix.

(** [strings.HasSuffix(s, suffix)]:
    [len(s) >= len(suffix) && s[len(s)-len(suffix):] == suffix]. *)
Definition HasSuffix (s suffix : string) : bool :=
  (String.length suffix <=? String.length s)%nat
  && String.eqb (drop (String.length s - String.length suffix) s) suffix.

(** [strings.TrimSuffix(s, suffix)] *)
Definition TrimSuffix (s suffix : string) : string :=
  if HasSuffix s suffix
  then take (String.length s - String.length suffix) s
  else s.

(** [strings.TrimPrefix(s, prefix)] *)
Definition TrimPrefix (s prefix : string) : string :=
  if HasPrefix s prefix then drop (String.length prefix) s else s.

(** One byte of [strings.ToLower]: the letters A..Z move to a..z.  Bytes
    from 128 on are kept as they are (Go lowers whole runes there; DNS
    names on the wire are ASCII). *)
Definition lowerByte (c : ascii) : ascii :=
  let n := N_of_ascii c in
  if ((65 <=? n) && (n <=? 90))%N then ascii_of_N (n + 32) else c.

Fixpoint ToLower (s : string) : string :=
  match s with
  | EmptyString => EmptyString
  | String c r => String (lowerByte c) (ToLower r)
  end.

(** [strings.Contains(s, substr)] *)
Fixpoint Contains (s substr : string) : bool :=
  HasPrefix s substr
  || match s with
     | EmptyString => false
     | String _ r => Contains r substr
     end.

(** The white space of [strings.TrimSpace] and [strings.Fields] on ASCII
    input: tab, line feed, vertical tab, form feed, carriage return and
    space. *)
Definition isSpace (c : ascii) : bool :=
  let n := N_of_ascii c in
  ((9 <=? n) && (n <=? 13) || (n =? 32))%N.

Fixpoint trimLeft (s : string) : string :=
  match s with
  | String c r => if isSpace c then trimLeft r else s
  | EmptyString => EmptyString
  end.

(** Drops trailing white space: a byte is kept when something that is
    kept follows it or when it is not white space itself. *)
Fixpoint trimRight (s : string) : string :=
  match s with
  | EmptyString => EmptyString
  | String c r =>
      match trimRight r with
      | EmptyString => if isSpace c then EmptyString else String c EmptyString
      | r' => String c r'
      end
  end.

(** [strings.TrimSpace(s)] *)
Definition TrimSpace (s : string) : string := trimRight (trimLeft s).

(** [strings.Split(s, sep)] for a separator of one byte: the pieces
    between the separators, at least one piece. *)
Fixpoint splitByte (sep : ascii) (s : string) : list string :=
  match s with
  | EmptyString => [EmptyString]
  | String c r =>
      if Ascii.eqb c sep then EmptyString :: splitByte sep r
      else match splitByte sep r with
           | piece :: rest => String c piece :: rest
           | [] => [String c EmptyString]
           end
  end.

(** The line feed, as a string. *)
Definition newline : string := String "010"%char EmptyString.

(** [strings.Join(elems, sep)] *)
Fixpoint Join (elems : list string) (sep : string) : string :=
  match elems with
  | [] => EmptyString
  | [e] => e
  | e :: rest => e ++ sep ++ Join rest sep
  end.

(** [strings.Fields(s)]: the maximal runs of bytes that are not white
    space. *)
Fixpoint fieldsAux (cur : string) (s : string) : list string :=
  match s with
  | EmptyString => if String.eqb cur "" then [] else [cur]
  | String c r =>
      if isSpace c
      then (if String.eqb cur "" then fieldsAux "" r else cur :: fieldsAux "" r)
      else fieldsAux (cur ++ String c EmptyString) r
  end.

Definition Fields (s : string) : list string := fieldsAux "" s.

End GoStrings.

(* ===================================================================== *)
(** ** Package [config] *)
(* ===================================================================== *)

Module Config.

(** [DefaultServerURL], the value compiled in when no linker flag
    overrides it. *)
Definition DefaultServerURL : string := "http://localhost:8080".

Record Forwarder := mkForwarder {
  Domain : string;
  Server : string
}.

(** [Forwarders] is a Go slice: [None] is the nil slice, [Some []] the
    empty slice [[]Forwarder{}]. *)
Record Config := mkConfig {
  Profile : string;
  ServerURL : string;
  Enabled : bool;
  Autostart : bool;
  Forwarders : option (list Forwarder)
}.

Definition Default : Config :=
  {| Profile := "";
     ServerURL := DefaultServerURL;
     Enabled := false;
     Autostart := false;
     Forwarders := Some [] |}.

(** Ranging over a slice, nil or not. *)
Definition slice {A} (s : option (list A)) : list A :=
  match s with Some l => l | None => [] end.

(** What [os.ReadFile] can answer. *)
Inductive readResult :=
| ReadOk (data : string)
| ReadNotExist
| ReadError (e : string).

(** An error value, as its message. *)
Definition error := string.

Section Load.
(** [configPath()]: the path of the configuration file, or the error of
    [os.UserConfigDir] or [os.MkdirAll]. *)
Variable configPath : error + string.
(** [os.ReadFile]. *)
Variable ReadFile : string -> readResult.
(** [json.Unmarshal(data, cfg)] into a zero [Config]: the decoded
    value, or the decoder's error.  A document without a
    ["forwarders"] member (or with [null] there) leaves the slice nil,
    one without ["serverUrl"] leaves the string empty. *)
Variable Unmarshal : string -> error + Config.

Definition Load : error + Config :=
  match configPath with
  | inl err => inl err
  | inr path =>
      match ReadFile path with
      | ReadNotExist => inr Default
      | ReadError err => inl err
      | ReadOk data =>
          match Unmarshal data with
          | inl err => inl err
          | inr cfg =>
              (* Apply defaults for missing fields *)
              let cfg :=
                if String.eqb (ServerURL cfg) ""
                then {| Profile := Profile cfg;
                        ServerURL := DefaultServerURL;
                        Enabled := Enabled cfg;
                        Autostart := Autostart cfg;
                        Forwarders := Forwarders cfg |}
                else cfg in
              let cfg :=
                match Forwarders cfg with
                | None => {| Profile := Profile cfg;
                             ServerURL := ServerURL cfg;
                             Enabled := Enabled cfg;
                             Autostart := Autostart cfg;
                             Forwarders := Some [] |}
                | Some _ => cfg
                end in
              inr cfg
          end
      end
  end.
End Load.

End Config.

(* ===================================================================== *)
(** ** Package [dns]: the forwarder matcher *)
(* ===================================================================== *)

Module Forwarder.
Import GoStrings.

Record forwarderRule := mkRule {
  pattern : string;
  server : string;
  isWild : bool
}.

Record ForwarderMatcher := mkMatcher { rules : list forwarderRule }.

(** The body of the loop of [NewForwarderMatcher]. *)
Definition ruleOf (f : Config.Forwarder) : forwarderRule :=
  let domain := ToLower (TrimSuffix (Config.Domain f) ".") in
  let isWild := HasPrefix domain "*." in
  let domain := if isWild then drop 2 domain else domain in
  {| pattern := domain; server := Config.Server f; isWild := isWild |}.

(** [rules = append(rules, ...)] for each forwarder in turn. *)
Definition NewForwarderMatcher (forwarders : list Config.Forwarder)
  : ForwarderMatcher :=
  {| rules := fold_left (fun rules f => (rules ++ [ruleOf f])%list) forwarders [] |}.

(** The loop of [Match] over the rules that are left. *)
Fixpoint matchRules (rs : list forwarderRule) (domain : string) : string :=
  match rs with
  | [] => ""
  | rule :: rest =>
      if isWild rule then
        if String.eqb domain (pattern rule)
           || HasSuffix domain ("." ++ pattern rule)
        then server rule
        else matchRules rest domain
      else
        if String.eqb domain (pattern rule)
           || HasSuffix domain ("." ++ pattern rule)
        then server rule
        else matchRules rest domain
  end.

(** [Match]: the server to forward to, or [""] when no rule matches. *)
Definition Match (m : ForwarderMatcher) (domain : string) : string :=
  let domain := ToLower (TrimSuffix domain ".") in
  matchRules (rules m) domain.

End Forwarder.

(* ===================================================================== *)
(** ** DNS messages (the part of [github.com/miekg/dns] the proxy reads) *)
(* ===================================================================== *)

Module Msg.

(** [net.IP]: a byte slice of length 4 or 16. *)
Definition IP := list Z.

Definition v4InV6Prefix : list Z := [0; 0; 0; 0; 0; 0; 0; 0; 0; 0; 255; 255].

(** [net.IPv4zero = IPv4(0, 0, 0, 0)], in the 16-byte form. *)
Definition IPv4zero : IP := (v4InV6Prefix ++ [0; 0; 0; 0])%list.

(** [net.IPv6zero]. *)
Definition IPv6zero : IP := [0; 0; 0; 0; 0; 0; 0; 0; 0; 0; 0; 0; 0; 0; 0; 0].

Definition bytesEqual (a b : list Z) : bool :=
  if decide (a = b) then true else false.

(** [IP.Equal]: equal slices, or an IPv4 address and its 16-byte form. *)
Definition IPEqual (ip x : IP) : bool :=
  if (length ip =? length x)%nat then bytesEqual ip x
  else if (length ip =? 4)%nat && (length x =? 16)%nat
  then bytesEqual (firstn 12 x) v4InV6Prefix && bytesEqual ip (skipn 12 x)
  else if (length ip =? 16)%nat && (length x =? 4)%nat
  then bytesEqual (firstn 12 ip) v4InV6Prefix && bytesEqual (skipn 12 ip) x
  else false.

Record RR_Header := mkHeader {
  Name : string;
  Rrtype : Z;
  Ttl : Z         (* uint32 *)
}.

(** A resource record: [*dns.A], [*dns.AAAA], or one of the other
    types. *)
Inductive RR :=
| A (hdr : RR_Header) (a : IP)
| AAAA (hdr : RR_Header) (aaaa : IP)
| Other (hdr : RR_Header) (rdata : string).

Definition Header (rr : RR) : RR_Header :=
  match rr with A h _ | AAAA h _ | Other h _ => h end.

Record Question := mkQuestion {
  qName : string;
  Qtype : Z;      (* uint16 *)
  Qclass : Z
}.

Record Msg := mkMsg {
  Id : Z;         (* uint16 *)
  Response : bool;
  Rcode : Z;
  Questions : list Question;
  Answer : list RR
}.

Definition RcodeServerFailure : Z := 2.
Definition RcodeNameError : Z := 3.
Definition TypeA : Z := 1.
Definition TypeAAAA : Z := 28.

(** [dns.HandleFailed(w, r)] writes [new(Msg).SetRcode(r, SERVFAIL)]: a
    reply with the query's id and its first question. *)
Definition failedReply (r : Msg) : Msg :=
  {| Id := Id r; Response := true; Rcode := RcodeServerFailure;
     Questions := firstn 1 (Questions r); Answer := [] |}.

Definition withId (m : Msg) (id : Z) : Msg :=
  {| Id := id; Response := Response m; Rcode := Rcode m;
     Questions := Questions m; Answer := Answer m |}.

End Msg.

(* ===================================================================== *)
(** ** Package [dns]: the response cache *)
(* ===================================================================== *)

Module Cache.

(** [time.Second] and [time.Minute], in nanoseconds. *)
Definition Second : Z := 1000000000.
Definition Minute : Z := 60 * Second.

(** The zero [time.Time] (1 January of year 1), in nanoseconds from the
    Unix epoch. *)
Definition zeroTime : Z := -62135596800 * Second.

Record cacheEntry := mkEntry {
  msg : Msg.Msg;
  expiresAt : Z
}.

Record Cache := mkCache {
  entries : gmap string cacheEntry;
  ttl : Z;        (* time.Duration *)
  maxSize : Z     (* int *)
}.

(** [NewCache]; the cleanup goroutine it starts is [cleanupTick] below,
    run by the ticker. *)
Definition NewCache (ttl maxSize : Z) : Cache :=
  {| entries := ∅; ttl := ttl; maxSize := maxSize |}.

Section WithTables.
(** [dns.TypeToString]: a Go map, so a type without an entry gives the
    empty string. *)
Variable TypeToString : Z -> string.
(** The order in which a [for ... range] loop visits a map: Go leaves
    it open, so any enumeration of the map's entries. *)
Variable rangeOrder : gmap string cacheEntry -> list (string * cacheEntry).

Definition cacheKey (domain : string) (qtype : Z) : string :=
  domain ++ ":" ++ TypeToString qtype.

(** [Get] at the time [now] read by [time.Now()].  [msg.Copy()] is the
    message itself here. *)
Definition Get (c : Cache) (domain : string) (qtype : Z) (now : Z)
  : option Msg.Msg :=
  let key := cacheKey domain qtype in
  match entries c !! key with
  | None => None
  | Some entry =>
      if expiresAt entry <? now (* time.Now().After(entry.expiresAt) *)
      then None
      else Some (msg entry)
  end.

(** The loop of [Set] over the answers, from [minTTL := uint32(3600)]. *)
Definition minAnswerTTL (answer : list Msg.RR) : Z :=
  fold_left (fun minTTL rr =>
               if Msg.Ttl (Msg.Header rr) <? minTTL
               then Msg.Ttl (Msg.Header rr) else minTTL)
            answer 3600.

(** The ttl [Set] computes before it decides to store. *)
Definition computedTTL (c : Cache) (m : Msg.Msg) : Z :=
  let ttl0 := ttl c in
  if (0 <? length (Msg.Answer m))%nat then
    let minTTL := minAnswerTTL (Msg.Answer m) in
    if minTTL * Second <? ttl0 then minTTL * Second else ttl0
  else ttl0.

(** One step of the loop of [evictOldest]. *)
Definition evictStep (acc : string * Z) (kv : string * cacheEntry)
  : string * Z :=
  let '(oldestKey, oldestTime) := acc in
  let '(key, entry) := kv in
  if String.eqb oldestKey "" || (expiresAt entry <? oldestTime)
  then (key, expiresAt entry)
  else (oldestKey, oldestTime).

Definition evictOldest (es : gmap string cacheEntry)
  : gmap string cacheEntry :=
  let '(oldestKey, _) := fold_left evictStep (rangeOrder es) ("", zeroTime) in
  if negb (String.eqb oldestKey "") then delete oldestKey es else es.

(** [Set] at the time [now]. *)
Definition Set_ (c : Cache) (domain : string) (qtype : Z) (m : Msg.Msg)
           (now : Z) : Cache :=
  let ttl1 := computedTTL c m in
  (* Don't cache very short TTLs *)
  if ttl1 <? 10 * Second then c
  else
    (* Evict if at capacity *)
    let es := if maxSize c <=? Z.of_nat (size (entries c))
              then evictOldest (entries c) else entries c in
    let key := cacheKey domain qtype in
    {| entries := <[key := {| msg := m; expiresAt := now + ttl1 |}]> es;
       ttl := ttl c; maxSize := maxSize c |}.

(** One tick of [cleanup]. *)
Definition cleanupTick (c : Cache) (now : Z) : Cache :=
  {| entries := filter (fun kv => ¬ (expiresAt kv.2 < now)) (entries c);
     ttl := ttl c; maxSize := maxSize c |}.

Definition Clear (c : Cache) : Cache :=
  {| entries := ∅; ttl := ttl c; maxSize := maxSize c |}.

Definition Size (c : Cache) : Z := Z.of_nat (size (entries c)).

(** The caches a program can hold: made by [NewCache], then changed
    by [Set], the cleanup ticker and [Clear]. *)
Inductive reachable (ttl0 maxSize0 : Z) : Cache -> Prop :=
| reach_new : reachable ttl0 maxSize0 (NewCache ttl0 maxSize0)
| reach_set c domain qtype m now :
    reachable ttl0 maxSize0 c ->
    reachable ttl0 maxSize0 (Set_ c domain qtype m now)
| reach_cleanup c now :
    reachable ttl0 maxSize0 c ->
    reachable ttl0 maxSize0 (cleanupTick c now)
| reach_clear c :
    reachable ttl0 maxSize0 c ->
    reachable ttl0 maxSize0 (Clear c).
End WithTables.

End Cache.

(* ===================================================================== *)
(** ** What the design document says, in its own words *)
(* ===================================================================== *)

Module ForwarderSpec.
Import GoStrings.

(** "lowercases, strips trailing dot" *)
Definition normalizedName (n : string) : string :=
  ToLower (TrimSuffix n ".").

(** "normalizes each domain to lowercase and strips trailing dot; ...
    if the original pattern started with [*.], strips the two-character
    prefix" *)
Definition normalizedPattern (d : string) : string :=
  let d' := ToLower (TrimSuffix d ".") in
  if HasPrefix d' "*." then drop 2 d' else d'.

(** "the normalized pattern is either equal to the name or a suffix of
    the name preceded by a dot" *)
Definition qualifies (n : string) (f : Config.Forwarder) : Prop :=
  normalizedName n = normalizedPattern (Config.Domain f)
  \/ exists pre : string,
       normalizedName n = pre ++ "." ++ normalizedPattern (Config.Domain f).
End ForwarderSpec.

(* ===================================================================== *)
(** ** Package [dns]: the DoH client *)
(* ===================================================================== *)

Module DoH.
Import GoStrings.

Definition error := string.

(** An [*http.Request], as far as [Query] fills it. *)
Record Request := mkRequest {
  method : string;
  url : string;
  headers : list (string * string);
  body : string
}.

(** An [*http.Response]: the status, and what [io.ReadAll(resp.Body)]
    returns, the bytes read and the error or none. *)
Record HttpResponse := mkHttpResponse {
  StatusCode : Z;
  Body : string;
  BodyError : option error
}.

(** The libraries and the network under the client.  None of them is code
    of this repository. *)
Record Net := mkNet {
  (** [url.Parse(u)] followed by [.Hostname()]; [None] when the parse
      fails. *)
  Hostname : string -> option string;
  (** [net.ParseIP(h)] followed by [.String()]; [None] when [h] is not an
      IP literal. *)
  ParseIP : string -> option string;
  (** [net.IP.String]. *)
  IPString : Msg.IP -> string;
  (** [dns.Fqdn]. *)
  Fqdn : string -> string;
  (** [Exchange(msg, server)] of a [dns.Client] over UDP with its timeout. *)
  Exchange : Msg.Msg -> string -> error + Msg.Msg;
  (** [Pack] and [Unpack] of a [dns.Msg]. *)
  Pack : Msg.Msg -> error + string;
  Unpack : string -> error + Msg.Msg;
  (** [base64.RawURLEncoding.EncodeToString]. *)
  base64url : string -> string;
  (** [%d] of [fmt]. *)
  itoa : Z -> string;
  (** The error of [http.NewRequestWithContext] for a method and a url, or
      none. *)
  newRequestError : string -> string -> option error;
  (** The [host:port] the HTTP transport asks its dialer for, for a
      request url; [None] when the request cannot be made. *)
  requestAddr : string -> option string;
  (** What [net.Dialer] and the HTTP exchange over its connection give
      for the address dialed.  An address with a host name makes the
      dialer resolve the name with the resolver of the system. *)
  roundTrip : string -> Request -> error + HttpResponse
}.

(** Bootstrap DNS servers used to resolve the DoH server hostname. *)
Definition bootstrapDNS : list string :=
  ["1.1.1.1:53"; "8.8.8.8:53"; "9.9.9.9:53"].

Record DoHClient := mkClient {
  serverURL : string;
  profile : string;
  serverIP : string       (* resolved IP of the DoH server, or empty *)
}.

Fixpoint IndexByte (s : string) (c : ascii) : option nat :=
  match s with
  | EmptyString => None
  | String a r => if Ascii.eqb a c then Some O else S <$> IndexByte r c
  end.

Fixpoint LastIndexByte (s : string) (c : ascii) : option nat :=
  match s with
  | EmptyString => None
  | String a r =>
      match LastIndexByte r c with
      | Some i => Some (S i)
      | None => if Ascii.eqb a c then Some O else None
      end
  end.

(** [net.JoinHostPort]: a host with a colon is taken for an IPv6 literal
    and bracketed. *)
Definition JoinHostPort (host port : string) : string :=
  match IndexByte host ":" with
  | Some _ => "[" ++ host ++ "]:" ++ port
  | None => host ++ ":" ++ port
  end.

(** [net.SplitHostPort]; [None] stands for its errors. *)
Definition SplitHostPort (hostport : string) : option (string * string) :=
  match LastIndexByte hostport ":" with
  | None => None                                  (* missing port *)
  | Some i =>
      let bracketed := HasPrefix hostport "[" in
      let parts : option (string * nat * nat) :=
        if bracketed then
          match IndexByte hostport "]" with
          | None => None                          (* missing ']' *)
          | Some e =>
              if (S e =? String.length hostport)%nat then None
              else if (S e =? i)%nat then Some (take (e - 1) (drop 1 hostport), 1%nat, S e)
              else None                           (* too many colons, or no port *)
          end
        else
          let host := take i hostport in
          match IndexByte host ":" with
          | Some _ => None                        (* too many colons *)
          | None => Some (host, O, O)
          end in
      match parts with
      | None => None
      | Some (host, j, k) =>
          match IndexByte (drop j hostport) "[", IndexByte (drop k hostport) "]" with
          | None, None => Some (host, drop (S i) hostport)
          | _, _ => None                          (* unexpected bracket *)
          end
      end
  end.

Section WithNet.
Variable net : Net.

(** The loop of [resolveWithDNS] over the answers: the first A
    record. *)
Fixpoint firstA (answer : list Msg.RR) : error + string :=
  match answer with
  | [] => inl "no A record found"
  | Msg.A _ a :: _ => inr (IPString net a)
  | _ :: rest => firstA rest
  end.

Definition resolveWithDNS (hostname dnsServer : string) : error + string :=
  let q := {| Msg.Id := 0; Msg.Response := false; Msg.Rcode := 0;
              Msg.Questions := [Msg.mkQuestion (Fqdn net hostname) Msg.TypeA 1];
              Msg.Answer := [] |} in
  match Exchange net q dnsServer with
  | inl err => inl err
  | inr resp => firstA (Msg.Answer resp)
  end.

(** The loop of [resolveServerIP] over the bootstrap servers. *)
Fixpoint tryBootstrap (hostname : string) (servers : list string) : string :=
  match servers with
  | [] => ""
  | bootstrap :: rest =>
      match resolveWithDNS hostname bootstrap with
      | inr ip => if negb (String.eqb ip "") then ip else tryBootstrap hostname rest
      | inl _ => tryBootstrap hostname rest
      end
  end.

(** [resolveServerIP]: the value it leaves in [c.serverIP]. *)
Definition resolveServerIP (serverURL : string) : string :=
  match Hostname net serverURL with
  | None => ""
  | Some hostname =>
      match ParseIP net hostname with
      | Some ip => ip
      | None => tryBootstrap hostname bootstrapDNS
      end
  end.

Definition NewDoHClient (serverURL profile : string) : DoHClient :=
  {| serverURL := serverURL; profile := profile;
     serverIP := resolveServerIP serverURL |}.

(** [dialContext]: the address it hands to [net.Dialer]. *)
Definition dialAddr (c : DoHClient) (addr : string) : string :=
  (* If we have a resolved IP, use it *)
  if negb (String.eqb (serverIP c) "") then
    match SplitHostPort addr with
    | Some (host, port) =>
        match Hostname net (serverURL c) with
        | Some h => if String.eqb host h
                    then JoinHostPort (serverIP c) port else addr
        | None => addr
        end
    | None => addr
    end
  else addr.

(** [httpClient.Do]: the transport dials through [dialContext]. *)
Definition Do (c : DoHClient) (req : Request) : error + HttpResponse :=
  match requestAddr net (url req) with
  | None => inl "unsupported protocol scheme"
  | Some addr => roundTrip net (dialAddr c addr) req
  end.

(** The url of [Query]. *)
Definition queryURL (c : DoHClient) (packed : string) : string :=
  let u := serverURL c ++ "/dns-query?dns=" ++ base64url net packed in
  if negb (String.eqb (profile c) "") then u ++ "&profile=" ++ profile c else u.

Definition queryRequest (c : DoHClient) (packed password : string) : Request :=
  {| method := "GET";
     url := queryURL c packed;
     headers := ("Accept", "application/dns-message")
                :: (if negb (String.eqb password "")
                    then [("X-FilterDNS-Password", password)] else []);
     body := "" |}.

(** The end of [Query], from the answer of [httpClient.Do] on. *)
Definition receive (answer : error + HttpResponse) : error + Msg.Msg :=
  match answer with
  | inl err => inl ("DoH request failed: " ++ err)
  | inr resp =>
      if negb (StatusCode resp =? 200)
      then inl ("DoH server returned " ++ itoa net (StatusCode resp)
                ++ ": " ++ Body resp)
      else
        match BodyError resp with
        | Some err => inl ("failed to read response: " ++ err)
        | None =>
            match Unpack net (Body resp) with
            | inl err => inl ("failed to unpack DNS response: " ++ err)
            | inr response => inr response
            end
        end
  end.

(** [Query]: a DNS query over HTTPS. *)
Definition Query (c : DoHClient) (m : Msg.Msg) (password : string)
  : error + Msg.Msg :=
  match Pack net m with
  | inl err => inl ("failed to pack DNS message: " ++ err)
  | inr packed =>
      match newRequestError net "GET" (queryURL c packed) with
      | Some err => inl ("failed to create request: " ++ err)
      | None => receive (Do c (queryRequest c packed password))
      end
  end.
End WithNet.

End DoH.

(* ===================================================================== *)
(** ** Package [dns]: the proxy *)
(* ===================================================================== *)

Module Proxy.
Import GoStrings.

(** [x++] on an [int64]. *)
Definition incr64 (x : Z) : Z :=
  (x + 1 + 2 ^ 63) mod 2 ^ 64 - 2 ^ 63.

Record Proxy := mkProxy {
  config : Config.Config;
  dohClient : DoH.DoHClient;
  forwarders : Forwarder.ForwarderMatcher;
  cache : Cache.Cache;
  queriesTotal : Z;
  queriesBlocked : Z
}.

Definition withCache (p : Proxy) (c : Cache.Cache) : Proxy :=
  {| config := config p; dohClient := dohClient p; forwarders := forwarders p;
     cache := c; queriesTotal := queriesTotal p; queriesBlocked := queriesBlocked p |}.

Definition withTotal (p : Proxy) (n : Z) : Proxy :=
  {| config := config p; dohClient := dohClient p; forwarders := forwarders p;
     cache := cache p; queriesTotal := n; queriesBlocked := queriesBlocked p |}.

Definition withBlocked (p : Proxy) (n : Z) : Proxy :=
  {| config := config p; dohClient := dohClient p; forwarders := forwarders p;
     cache := cache p; queriesTotal := queriesTotal p; queriesBlocked := n |}.

(** The loop of [isBlockedResponse] over the answers. *)
Fixpoint answersBlocked (answer : list Msg.RR) : bool :=
  match answer with
  | [] => false
  | Msg.A _ a :: rest =>
      if Msg.IPEqual a Msg.IPv4zero then true else answersBlocked rest
  | Msg.AAAA _ aaaa :: rest =>
      if Msg.IPEqual aaaa Msg.IPv6zero then true else answersBlocked rest
  | Msg.Other _ _ :: rest => answersBlocked rest
  end.

(** [isBlockedResponse]: does the response indicate a blocked domain? *)
Definition isBlockedResponse (resp : Msg.Msg) : bool :=
  if Msg.Rcode resp =? Msg.RcodeNameError then true
  else answersBlocked (Msg.Answer resp).

Section WithNet.
Variable net : DoH.Net.
Variable TypeToString : Z -> string.
Variable rangeOrder :
  gmap string Cache.cacheEntry -> list (string * Cache.cacheEntry).
(** [config.GetPassword(profile)], the value it returns beside its
    error. *)
Variable GetPassword : string -> string.

Definition NewProxy (cfg : Config.Config) : Proxy :=
  {| config := cfg;
     dohClient := DoH.NewDoHClient net (Config.ServerURL cfg) (Config.Profile cfg);
     forwarders := Forwarder.NewForwarderMatcher (Config.slice (Config.Forwarders cfg));
     cache := Cache.NewCache (5 * Cache.Minute) 10000;
     queriesTotal := 0;
     queriesBlocked := 0 |}.

(** "Cache the response", at the time [now]. *)
Definition cacheResponse (p : Proxy) (r resp : Msg.Msg) (now : Z) : Proxy :=
  match Msg.Questions r with
  | q :: _ =>
      withCache p (Cache.Set_ TypeToString rangeOrder (cache p)
                     (ToLower (Msg.qName q)) (Msg.Qtype q) resp now)
  | [] => p
  end.

(** [forwardToDoH]: the proxy afterwards and the message written. *)
Definition forwardToDoH (p : Proxy) (r : Msg.Msg) (now : Z) : Proxy * Msg.Msg :=
  let password := GetPassword (Config.Profile (config p)) in
  match DoH.Query net (dohClient p) r password with
  | inl _ => (p, Msg.failedReply r)
  | inr resp =>
      let p := cacheResponse p r resp now in
      (* Check if response indicates blocking *)
      let p := if isBlockedResponse resp
               then withBlocked p (incr64 (queriesBlocked p)) else p in
      (p, resp)
  end.

(** [forwardToServer]: the proxy afterwards and the message written. *)
Definition forwardToServer (p : Proxy) (r : Msg.Msg) (server : string) (now : Z)
  : Proxy * Msg.Msg :=
  (* Ensure server has a port *)
  let server := if negb (Contains server ":")
                then DoH.JoinHostPort server "53" else server in
  match DoH.Exchange net r server with
  | inl _ => (p, Msg.failedReply r)
  | inr resp =>
      let p := cacheResponse p r resp now in
      (p, resp)
  end.

(** [handleQuery]; [now] is the time of the cache lookup, [later] the
    time at which a forwarded response is cached. *)
Definition handleQuery (p : Proxy) (r : Msg.Msg) (now later : Z)
  : Proxy * Msg.Msg :=
  let p := withTotal p (incr64 (queriesTotal p)) in
  match Msg.Questions r with
  | [] => (p, Msg.failedReply r)
  | q :: _ =>
      let qname := ToLower (Msg.qName q) in
      (* Check cache first *)
      match Cache.Get TypeToString (cache p) qname (Msg.Qtype q) now with
      | Some cached => (p, Msg.withId cached (Msg.Id r))
      | None =>
          (* Check if this domain should be forwarded to a split DNS server *)
          let forwarder := Forwarder.Match (forwarders p) qname in
          if negb (String.eqb forwarder "")
          then forwardToServer p r forwarder later
          else forwardToDoH p r later
      end
  end.

Definition UpdateForwarders (p : Proxy) (fs : option (list Config.Forwarder))
  : Proxy :=
  {| config := config p; dohClient := dohClient p;
     forwarders := Forwarder.NewForwarderMatcher (Config.slice fs);
     cache := cache p; queriesTotal := queriesTotal p;
     queriesBlocked := queriesBlocked p |}.

Definition GetStats (p : Proxy) : Z * Z := (queriesTotal p, queriesBlocked p).
End WithNet.

End Proxy.

(* ===================================================================== *)
(** ** Package [system]: the resolver of the host and its backup *)
(* ===================================================================== *)

Module System.
Import GoStrings.

Definition error := string.

(** [LinuxDNSBackup].  The slice [OriginalDNS] is only ever measured and
    joined, so nil and empty are one list here. *)
Record LinuxDNSBackup := mkLinuxBackup {
  System_ : string;   (* "systemd-resolved", "networkmanager", "resolvconf" *)
  ConnectionName : string;
  OriginalDNS : list string;
  IgnoreAutoDNS : bool;
  Interface : string;
  ResolvConfModified : bool
}.

(** [DNSBackup]; on Linux the macOS and Windows parts stay nil and are left
    out. *)
Record DNSBackup := mkBackup {
  CreatedAt : Z;
  Linux : option LinuxDNSBackup;
  DNSModified : bool
}.

(** What the daemon does to the host, in the order it does it.  Reading
    a file or a link leaves no event, nor does removing a file that is not
    there, nor does [os.MkdirAll] where the directory is there. *)
Inductive Event :=
| WriteFile (path data : string) (ok : bool)
| Remove (path : string) (ok : bool)
| Mkdir (path : string) (ok : bool)
| Exec (argv : list string) (ok : bool)
| ProxyStart
| ProxyStop.

(** The host under the daemon: its tools, over a state [S] of their own
    (the settings systemd-resolved and NetworkManager keep), and what the
    file system allows. *)
Record Host (S : Type) := mkHost {
  (** [exec.Command(argv...)] run to its end: exit status zero or not, the
      output, and the state the tool leaves. *)
  exec : list string -> S -> bool * string * S;
  (** [exec.LookPath] finds the program. *)
  lookPath : string -> bool;
  (** [os.Readlink]; [None] when the path is not a symbolic link. *)
  readlink : string -> option string;
  (** [os.WriteFile] to the path succeeds. *)
  canWrite : string -> bool;
  (** [os.Mkdir] of the path, when it is missing, succeeds. *)
  canMkdir : string -> bool;
  (** [os.Remove] of the path, when it exists, succeeds. *)
  canRemove : string -> bool;
  (** [os.ReadFile] or [os.Open] of the path, when it exists, succeeds. *)
  canRead : string -> bool;
  (** [time.Now()]. *)
  clock : Z;
  (** [json.MarshalIndent] and [json.Unmarshal] of a [DNSBackup]. *)
  marshalBackup : DNSBackup -> string;
  unmarshalBackup : string -> option DNSBackup;
  (** [configPath()] and [json.MarshalIndent] of package [config]. *)
  configPath : error + string;
  marshalConfig : Config.Config -> string
}.

Arguments exec {S}. Arguments lookPath {S}. Arguments readlink {S}.
Arguments canWrite {S}. Arguments canRemove {S}. Arguments canRead {S}.
Arguments canMkdir {S}.
Arguments clock {S}. Arguments marshalBackup {S}. Arguments unmarshalBackup {S}.
Arguments configPath {S}. Arguments marshalConfig {S}.

(** The files (paths of directories too, with empty content) and the state
    of the tools. *)
Record World (S : Type) := mkWorld {
  fs : gmap string string;
  os : S
}.

Arguments mkWorld {S}. Arguments fs {S}. Arguments os {S}.

Definition resolvConf : string := "/etc/resolv.conf".
Definition resolvConfBackup : string := "/etc/resolv.conf.filterdns.bak".

(** The directory of the backup on Linux, and
    [filepath.Join(dir, "dns-backup.json")]. *)
Definition backupDir : string := "/var/lib/filterdns".
Definition backupFile : string := "/var/lib/filterdns/dns-backup.json".

(** A path and the directories above it, from the top down: for
    [/var/lib/filterdns] these are [/var], [/var/lib] and
    [/var/lib/filterdns]. *)
Fixpoint prefixes (seen rest : string) : list string :=
  match rest with
  | EmptyString => [seen]
  | String c r =>
      if Ascii.eqb c "/" && negb (String.eqb seen "")
      then seen :: prefixes (seen ++ String c EmptyString) r
      else prefixes (seen ++ String c EmptyString) r
  end.

Definition ancestors (dir : string) : list string := prefixes "" dir.

(** A computation on the host: its result, the world after it, and the
    events it caused. *)
Definition M (S A : Type) : Type := World S -> A * World S * list Event.

Definition ret {S A} (a : A) : M S A := fun w => (a, w, []).

Definition bind {S A B} (c : M S A) (k : A -> M S B) : M S B :=
  fun w =>
    let '(a, w1, e1) := c w in
    let '(b, w2, e2) := k a w1 in
    (b, w2, (e1 ++ e2)%list).

Notation "'let*' x ':=' c1 'in' c2" := (bind c1 (fun x => c2))
  (at level 10, x name, c1 at level 100, c2 at level 200, only parsing).

Definition value {S A} (r : A * World S * list Event) : A := r.1.1.
Definition after {S A} (r : A * World S * list Event) : World S := r.1.2.
Definition events {S A} (r : A * World S * list Event) : list Event := r.2.

Inductive readResult :=
| ReadOk (data : string)
| ReadNotExist
| ReadError (err : error).

Inductive removeResult :=
| RemoveOk
| RemoveNotExist
| RemoveError (err : error).

Section WithHost.
Context {S : Type} (host : Host S).

(** [os.Stat(path)] finds something. *)
Definition exists_ (path : string) : M S bool :=
  fun w => (bool_decide (is_Some (fs w !! path)), w, []).

Definition ReadFile (path : string) : M S readResult :=
  fun w =>
    match fs w !! path with
    | None => (ReadNotExist, w, [])
    | Some data =>
        if canRead host path then (ReadOk data, w, [])
        else (ReadError "permission denied", w, [])
    end.

Definition WriteFile_ (path data : string) : M S (option error) :=
  fun w =>
    if canWrite host path
    then (None, {| fs := <[path := data]> (fs w); os := os w |},
          [WriteFile path data true])
    else (Some "permission denied", w, [WriteFile path data false]).

Definition Remove_ (path : string) : M S removeResult :=
  fun w =>
    match fs w !! path with
    | None => (RemoveNotExist, w, [])
    | Some _ =>
        if canRemove host path
        then (RemoveOk, {| fs := delete path (fs w); os := os w |},
              [Remove path true])
        else (RemoveError "operation not permitted", w, [Remove path false])
    end.

(** [exec.Command(argv...)] with [Output], [CombinedOutput] or [Run]: the
    error is nil or not, beside the output. *)
Definition run (argv : list string) : M S (bool * string) :=
  fun w =>
    let '(ok, out, s') := exec host argv (os w) in
    ((ok, out), {| fs := fs w; os := s' |}, [Exec argv ok]).

(** [os.Mkdir] of a path that is missing. *)
Definition Mkdir_ (path : string) : M S (option error) :=
  fun w =>
    if canMkdir host path
    then (None, {| fs := <[path := ""]> (fs w); os := os w |}, [Mkdir path true])
    else (Some "permission denied", w, [Mkdir path false]).

(** The descent of [os.MkdirAll]: a directory that is there is passed, one
    that is missing is made, and a refusal ends the descent. *)
Fixpoint mkdirs (dirs : list string) : M S (option error) :=
  match dirs with
  | [] => ret None
  | dir :: rest =>
      let* there := exists_ dir in
      if there then mkdirs rest
      else
        let* made := Mkdir_ dir in
        match made with
        | Some err => ret (Some err)
        | None => mkdirs rest
        end
  end.

(** [os.MkdirAll(dir, 0755)]: nothing to do when [dir] is there;
    otherwise [dir] is made, with the parents it lacks. *)
Definition MkdirAll (dir : string) : M S (option error) :=
  let* there := exists_ dir in
  if there then ret None else mkdirs (ancestors dir).

(** [backupFilePath()] on Linux: each call ensures that the directory
    exists, dropping the error of [os.MkdirAll]. *)
Definition backupFilePath : M S string :=
  let* _ := MkdirAll backupDir in
  ret backupFile.

(** *** The persistent backup *)

(** [SaveBackup]; [json.MarshalIndent] has no error on this record. *)
Definition SaveBackup (backup : DNSBackup) : M S (option error) :=
  let backup := {| CreatedAt := clock host; Linux := Linux backup;
                   DNSModified := true |} in
  let data := marshalBackup host backup in
  let* path := backupFilePath in
  WriteFile_ path data.

(** [LoadBackup]: [inr None] is "no backup exists". *)
Definition LoadBackup : M S (error + option DNSBackup) :=
  let* path := backupFilePath in
  let* r := ReadFile path in
  match r with
  | ReadNotExist => ret (inr None)
  | ReadError err => ret (inl err)
  | ReadOk data =>
      match unmarshalBackup host data with
      | None => ret (inl "invalid backup document")
      | Some backup => ret (inr (Some backup))
      end
  end.

(** [ClearBackup] *)
Definition ClearBackup : M S (option error) :=
  let* path := backupFilePath in
  let* r := Remove_ path in
  match r with
  | RemoveOk | RemoveNotExist => ret None
  | RemoveError err => ret (Some err)
  end.

(** *** Which system manages DNS *)

Definition isSystemdResolved : bool :=
  match readlink host resolvConf with
  | None => false
  | Some link => Contains link "systemd" || Contains link "resolved"
  end.

Definition isNetworkManager : M S bool :=
  if negb (lookPath host "nmcli") then ret false
  else
    let* r := run ["systemctl"; "is-active"; "NetworkManager"] in
    ret (r.1 && String.eqb (TrimSpace r.2) "active").

(** The scan of [getDefaultInterface] over the lines after the header. *)
Fixpoint defaultRoute (lines : list string) : option string :=
  match lines with
  | [] => None
  | line :: rest =>
      match Fields line with
      | f0 :: f1 :: _ => if String.eqb f1 "00000000" then Some f0
                         else defaultRoute rest
      | _ => defaultRoute rest
      end
  end.

(** Its fallback over the common interface names. *)
Fixpoint firstPresent (names : list string) : M S (error + string) :=
  match names with
  | [] => ret (inl "no default interface found")
  | name :: rest =>
      let* found := exists_ ("/sys/class/net/" ++ name) in
      if found then ret (inr name) else firstPresent rest
  end.

(** [getDefaultInterface].  The scanner's lines are the pieces between
    line feeds; the first is the header. *)
Definition getDefaultInterface : M S (error + string) :=
  let* r := ReadFile "/proc/net/route" in
  match r with
  | ReadNotExist => ret (inl "no such file or directory")
  | ReadError err => ret (inl err)
  | ReadOk data =>
      match defaultRoute (tail (splitByte "010"%char data)) with
      | Some iface => ret (inr iface)
      | None => firstPresent ["eth0"; "wlan0"; "enp0s3"; "ens33"]
      end
  end.

(** *** systemd-resolved *)

Definition setDNSSystemdResolved (server : string) : M S (option error) :=
  let* r := getDefaultInterface in
  match r with
  | inl err => ret (Some ("failed to get default interface: " ++ err))
  | inr iface =>
      (* Create persistent backup *)
      let backup := {| CreatedAt := 0;
                       Linux := Some {| System_ := "systemd-resolved";
                                        ConnectionName := "";
                                        OriginalDNS := [];
                                        IgnoreAutoDNS := false;
                                        Interface := iface;
                                        ResolvConfModified := false |};
                       DNSModified := false |} in
      let* saved := SaveBackup backup in
      match saved with
      | Some err => ret (Some ("failed to save DNS backup: " ++ err))
      | None =>
          let* r1 := run ["resolvectl"; "dns"; iface; server] in
          if negb r1.1 then ret (Some ("resolvectl failed: " ++ r1.2))
          else
            (* Ignore errors, not all versions support this *)
            let* _ := run ["resolvectl"; "default-route"; iface; "true"] in
            ret None
      end
  end.

Definition resetDNSSystemdResolved : M S (option error) :=
  (* Load backup to get interface name *)
  let* loaded := LoadBackup in
  let fromBackup :=
    match loaded with
    | inr (Some backup) =>
        match Linux backup with
        | Some l => if negb (String.eqb (Interface l) "")
                    then Some (Interface l) else None
        | None => None
        end
    | _ => None
    end in
  let* r := match fromBackup with
       | Some iface => ret (inr iface)
       | None => getDefaultInterface
       end in
  match r with
  | inl err => ret (Some err)
  | inr iface =>
      (* Revert to DHCP-provided DNS *)
      let* r1 := run ["resolvectl"; "revert"; iface] in
      if negb r1.1 then ret (Some ("resolvectl revert failed: " ++ r1.2))
      else
        let* _ := ClearBackup in
        ret None
  end.

(** *** NetworkManager *)

(** [lines[0]] of [strings.Split(strings.TrimSpace(output), "\n")]. *)
Definition firstLine (output : string) : string :=
  hd "" (splitByte "010"%char (TrimSpace output)).

(** [getNetworkManagerDNS] *)
Definition getNetworkManagerDNS (connName : string) : M S (list string * bool) :=
  let* r1 := run ["nmcli"; "-t"; "-f"; "ipv4.dns"; "connection"; "show"; connName] in
  let dns :=
    if r1.1 then
      let line := TrimSpace r1.2 in
      if HasPrefix line "ipv4.dns:" then
        let dnsStr := TrimPrefix line "ipv4.dns:" in
        if negb (String.eqb dnsStr "") && negb (String.eqb dnsStr "--")
        then splitByte "," dnsStr else []
      else []
    else [] in
  let* r2 := run ["nmcli"; "-t"; "-f"; "ipv4.ignore-auto-dns"; "connection"; "show"; connName] in
  let ignoreAuto := r2.1 && Contains (TrimSpace r2.2) "yes" in
  ret (dns, ignoreAuto).

(** [setDNSNetworkManager].  [strings.Split] returns at least one piece,
    so the two tests [len(lines) == 0] and [len(parts) < 1] of the source
    never hold and have no branch here. *)
Definition setDNSNetworkManager (server : string) : M S (option error) :=
  (* Get the active connection *)
  let* r := run ["nmcli"; "-t"; "-f"; "NAME,DEVICE,STATE"; "connection"; "show"; "--active"] in
  if negb r.1 then ret (Some "failed to get active connection")
  else
    (* Parse the first active connection *)
    let connName := hd "" (splitByte ":" (firstLine r.2)) in
    (* Get current DNS settings for backup *)
    let* cur := getNetworkManagerDNS connName in
    (* Create persistent backup BEFORE modifying *)
    let backup := {| CreatedAt := 0;
                     Linux := Some {| System_ := "networkmanager";
                                      ConnectionName := connName;
                                      OriginalDNS := cur.1;
                                      IgnoreAutoDNS := cur.2;
                                      Interface := "";
                                      ResolvConfModified := false |};
                     DNSModified := false |} in
    let* saved := SaveBackup backup in
    match saved with
    | Some err => ret (Some ("failed to save DNS backup: " ++ err))
    | None =>
        (* Set DNS for the connection *)
        let* r1 := run ["nmcli"; "connection"; "modify"; connName;
                   "ipv4.dns"; server; "ipv4.ignore-auto-dns"; "yes"] in
        if negb r1.1 then ret (Some ("nmcli modify failed: " ++ r1.2))
        else
          (* Reactivate the connection *)
          let* r2 := run ["nmcli"; "connection"; "up"; connName] in
          if negb r2.1 then ret (Some ("nmcli up failed: " ++ r2.2))
          else ret None
    end.

(** The values [resetDNSNetworkManager] writes back. *)
Definition restoredValues (originalDNS : list string) (ignoreAutoDNS : bool)
  : string * string :=
  if (0 <? length originalDNS)%nat
  then (Join originalDNS ",", if ignoreAutoDNS then "yes" else "no")
  else ("", "no").

(** [resetDNSNetworkManager]; its test [len(lines) == 0] never holds
    either. *)
Definition resetDNSNetworkManager : M S (option error) :=
  let* loaded := LoadBackup in
  match loaded with
  | inl err => ret (Some ("failed to load DNS backup: " ++ err))
  | inr backup =>
      let '(connName, originalDNS, ignoreAutoDNS) :=
        match backup with
        | Some b =>
            match Linux b with
            | Some l => (ConnectionName l, OriginalDNS l, IgnoreAutoDNS l)
            | None => ("", [], false)
            end
        | None => ("", [], false)
        end in
      let restore (connName : string) : M S (option error) :=
        let '(dnsValue, ignoreAutoValue) := restoredValues originalDNS ignoreAutoDNS in
        let* r1 := run ["nmcli"; "connection"; "modify"; connName;
                   "ipv4.dns"; dnsValue; "ipv4.ignore-auto-dns"; ignoreAutoValue] in
        if negb r1.1 then ret (Some ("nmcli modify failed: " ++ r1.2))
        else
          (* Reactivate *)
          let* _ := run ["nmcli"; "connection"; "up"; connName] in
          let* _ := ClearBackup in
          ret None in
      (* If no backup, get current active connection *)
      if String.eqb connName "" then
        let* r := run ["nmcli"; "-t"; "-f"; "NAME"; "connection"; "show"; "--active"] in
        if negb r.1 then (let* _ := ClearBackup in ret None)
        else restore (firstLine r.2)
      else restore connName
  end.

(** *** The file [/etc/resolv.conf] itself *)

Definition setDNSResolvConf (server : string) : M S (option error) :=
  (* Backup the original file (only if no backup exists) *)
  let* have := exists_ resolvConfBackup in
  let* copied := (if have then ret None
             else
               let* r := ReadFile resolvConf in
               match r with
               | ReadNotExist => ret (Some "failed to read resolv.conf: no such file")
               | ReadError err => ret (Some ("failed to read resolv.conf: " ++ err))
               | ReadOk input =>
                   let* w := WriteFile_ resolvConfBackup input in
                   match w with
                   | Some err => ret (Some ("failed to backup resolv.conf: " ++ err))
                   | None => ret None
                   end
               end) in
  match copied with
  | Some err => ret (Some err)
  | None =>
      (* Also create JSON backup for consistency *)
      let backup := {| CreatedAt := 0;
                       Linux := Some {| System_ := "resolvconf";
                                        ConnectionName := "";
                                        OriginalDNS := [];
                                        IgnoreAutoDNS := false;
                                        Interface := "";
                                        ResolvConfModified := true |};
                       DNSModified := false |} in
      let* _ := SaveBackup backup in
      (* Write new resolv.conf *)
      let content := "# Generated by FilterDNS Client" ++ newline
                     ++ "nameserver " ++ server ++ newline in
      let* w := WriteFile_ resolvConf content in
      match w with
      | Some err => ret (Some ("failed to write resolv.conf: " ++ err))
      | None => ret None
      end
  end.

Definition resetDNSResolvConf : M S (option error) :=
  let* have := exists_ resolvConfBackup in
  if negb have then
    let* _ := ClearBackup in
    ret None (* No backup to restore *)
  else
    let* r := ReadFile resolvConfBackup in
    match r with
    | ReadNotExist => ret (Some "no such file or directory")
    | ReadError err => ret (Some err)
    | ReadOk input =>
        let* w := WriteFile_ resolvConf input in
        match w with
        | Some err => ret (Some err)
        | None =>
            let* _ := Remove_ resolvConfBackup in
            let* _ := ClearBackup in
            ret None
        end
    end.

(** *** [SetDNS] and [ResetDNS] on Linux *)

Definition setDNS (server : string) : M S (option error) :=
  if isSystemdResolved then setDNSSystemdResolved server
  else
    let* nm := isNetworkManager in
    if nm then setDNSNetworkManager server
    else setDNSResolvConf server.  (* Fallback *)

Definition resetDNS : M S (option error) :=
  if isSystemdResolved then resetDNSSystemdResolved
  else
    let* nm := isNetworkManager in
    if nm then resetDNSNetworkManager
    else resetDNSResolvConf.

Definition SetDNS (server : string) : M S (option error) := setDNS server.
Definition ResetDNS : M S (option error) := resetDNS.

(** [HasPendingRestore] *)
Definition HasPendingRestore : M S bool :=
  let* loaded := LoadBackup in
  match loaded with
  | inr (Some backup) => ret (DNSModified backup)
  | _ => ret false
  end.

(** [RestoreFromBackupIfNeeded] *)
Definition RestoreFromBackupIfNeeded : M S (option error) :=
  let* pending := HasPendingRestore in
  if negb pending then ret None
  else
    let* r := ResetDNS in
    match r with
    | Some err => ret (Some err)
    | None => ClearBackup
    end.

End WithHost.

(** *** Reading a trace *)

(** The event changes, or tries to change, what the host resolves with:
    a write of [/etc/resolv.conf], a [resolvectl] command, or an [nmcli]
    command that modifies or re-activates a connection. *)
Definition mutatesResolver (ev : Event) : bool :=
  match ev with
  | WriteFile path _ _ => String.eqb path resolvConf
  | Exec ("resolvectl" :: _) _ => true
  | Exec ("nmcli" :: "connection" :: "modify" :: _) _ => true
  | Exec ("nmcli" :: "connection" :: "up" :: _) _ => true
  | _ => false
  end.

(** The event is a write of the backup file that succeeded. *)
Definition savesBackup (ev : Event) : bool :=
  match ev with
  | WriteFile path _ true => String.eqb path backupFile
  | _ => false
  end.

(** The event is a removal of the backup file, tried or done. *)
Definition clearsBackup (ev : Event) : bool :=
  match ev with
  | Remove path _ => String.eqb path backupFile
  | _ => false
  end.

(** The event is the making of a directory, tried or done. *)
Definition isMkdir (ev : Event) : bool :=
  match ev with
  | Mkdir _ _ => true
  | _ => false
  end.


End System.

Module SystemSpec.
Import System.

(** "The backup write happens-before any resolver mutation": whatever
    mutates the resolver comes after a write of the backup that
    succeeded. *)
Definition backupBeforeMutation (evs : list Event) : Prop :=
  forall pre ev post,
    evs = (pre ++ ev :: post)%list -> mutatesResolver ev = true ->
    exists saved, In saved pre /\ savesBackup saved = true.

(** "The backup delete happens-after all restoration steps": nothing
    mutates the resolver once the removal of the backup has been tried. *)
Definition clearAfterRestore (evs : list Event) : Prop :=
  forall pre ev post,
    evs = (pre ++ ev :: post)%list -> clearsBackup ev = true ->
    forall later, In later post -> mutatesResolver later = false.

(** "A backup file exists." *)
Definition backupExists {S} (w : World S) : Prop :=
  is_Some (fs w !! backupFile).

(** "No backup file exists." *)
Definition backupAbsent {S} (w : World S) : Prop :=
  fs w !! backupFile = None.

(** "The files are as they were", the backup directory and the
    directories above it apart; where the backup directory is there,
    without exception. *)
Definition filesKept {S} (w w' : World S) : Prop :=
  (forall p, ~ In p (ancestors backupDir) -> fs w' !! p = fs w !! p)
  /\ (is_Some (fs w !! backupDir) -> fs w' = fs w).

(** "No resolver mutation": no event of the trace mutates the resolver. *)
Definition noMutation (evs : list Event) : Prop :=
  forall ev, In ev evs -> mutatesResolver ev = false.

(** The three readings above as scans of the trace: [saved] tells whether
    a backup write has been seen, [cleared] whether a removal has. *)
Fixpoint savedFirst (saved : bool) (evs : list Event) : bool :=
  match evs with
  | [] => true
  | ev :: rest =>
      (negb (mutatesResolver ev) || saved)
      && savedFirst (saved || savesBackup ev) rest
  end.

Fixpoint clearedLast (cleared : bool) (evs : list Event) : bool :=
  match evs with
  | [] => true
  | ev :: rest =>
      negb (cleared && mutatesResolver ev)
      && clearedLast (cleared || clearsBackup ev) rest
  end.

Definition quiet (evs : list Event) : bool :=
  forallb (fun ev => negb (mutatesResolver ev)) evs.

(** Events that neither mutate the resolver nor touch the backup. *)
Definition inert (evs : list Event) : bool :=
  forallb (fun ev => negb (mutatesResolver ev) && negb (savesBackup ev)
                     && negb (clearsBackup ev)) evs.
End SystemSpec.

(* ===================================================================== *)
(** ** Package [daemon] *)
(* ===================================================================== *)

Module Daemon.
Import System.

(** [Daemon]: the configuration, the proxy or none, and the running
    flag. *)
Record Daemon := mkDaemon {
  config : Config.Config;
  proxy : option Proxy.Proxy;
  running : bool
}.

(** [Status] *)
Record Status := mkStatus {
  Running : bool;
  Profile : string;
  ServerURL : string;
  QueriesTotal : Z;
  QueriesBlocked : Z
}.

Definition withEnabled (cfg : Config.Config) (enabled : bool) : Config.Config :=
  {| Config.Profile := Config.Profile cfg;
     Config.ServerURL := Config.ServerURL cfg;
     Config.Enabled := enabled;
     Config.Autostart := Config.Autostart cfg;
     Config.Forwarders := Config.Forwarders cfg |}.

Section WithHost.
Context {S : Type} (host : Host S) (net : DoH.Net).

Definition emit (ev : Event) : M S unit := fun w => (tt, w, [ev]).

(** [config.Save] *)
Definition Save (cfg : Config.Config) : M S (option error) :=
  match configPath host with
  | inl err => ret (Some err)
  | inr path => WriteFile_ host path (marshalConfig host cfg)
  end.

(** [enable]: starts DNS filtering.  The proxy holds the pointer to the
    daemon's configuration, so it sees [Enabled] change with it. *)
Definition enable (d : Daemon) : M S (option error * Daemon) :=
  if running d then ret (None, d)
  else if String.eqb (Config.Profile (config d)) ""
  then ret (Some "no profile configured", d)
  else
    (* Create and start proxy *)
    let p := Proxy.NewProxy net (config d) in
    let* _ := emit ProxyStart in
    (* Configure system DNS *)
    let* r := SetDNS host "127.0.0.1" in
    match r with
    | Some err =>
        let* _ := emit ProxyStop in
        ret (Some ("failed to set system DNS: " ++ err),
             {| config := config d; proxy := None; running := running d |})
    | None =>
        let cfg := withEnabled (config d) true in
        let* _ := Save cfg in
        ret (None,
             {| config := cfg;
                proxy := Some {| Proxy.config := cfg;
                                 Proxy.dohClient := Proxy.dohClient p;
                                 Proxy.forwarders := Proxy.forwarders p;
                                 Proxy.cache := Proxy.cache p;
                                 Proxy.queriesTotal := Proxy.queriesTotal p;
                                 Proxy.queriesBlocked := Proxy.queriesBlocked p |};
                running := true |})
    end.

(** [disable]: stops DNS filtering. *)
Definition disable (d : Daemon) : M S (option error * Daemon) :=
  if negb (running d) then ret (None, d)
  else
    let* _ := match proxy d with
              | Some _ => emit ProxyStop
              | None => ret tt
              end in
    let* _ := ResetDNS host in
    let cfg := withEnabled (config d) false in
    let* _ := Save cfg in
    ret (None, {| config := cfg; proxy := None; running := false |}).

(** [getStatus] *)
Definition getStatus (d : Daemon) : Status :=
  {| Running := running d;
     Profile := Config.Profile (config d);
     ServerURL := Config.ServerURL (config d);
     QueriesTotal := match proxy d with Some p => Proxy.queriesTotal p | None => 0 end;
     QueriesBlocked := match proxy d with Some p => Proxy.queriesBlocked p | None => 0 end |}.

End WithHost.
End Daemon.

Module ProxySpec.
(** "rcode == NXDOMAIN, OR any A answer equals 0.0.0.0, OR any AAAA
    answer equals ::".  An A record holds its address in 4 bytes when it
    comes off the wire and in the 16-byte form of [net.IPv4] when a
    program built it. *)
Definition isBlock (resp : Msg.Msg) : Prop :=
  Msg.Rcode resp = 3
  \/ (exists h a, In (Msg.A h a) (Msg.Answer resp)
                  /\ (a = [0; 0; 0; 0] \/ a = Msg.IPv4zero))
  \/ (exists h a, In (Msg.AAAA h a) (Msg.Answer resp)
                  /\ a = [0; 0; 0; 0; 0; 0; 0; 0; 0; 0; 0; 0; 0; 0; 0; 0]).
End ProxySpec.

Module CacheSpec.
(** "TTL = min(default_ttl, min_rr_ttl_in_answer seconds)", with what
    the code adds to it: the smallest answer ttl is capped at 3600
    seconds, and a response without answers keeps the default. *)
Definition effectiveTTL (defaultTTL : Z) (answerTTLs : list Z) : Z :=
  match answerTTLs with
  | [] => defaultTTL
  | _ => Z.min defaultTTL (fold_right Z.min 3600 answerTTLs * Cache.Second)
  end.
End CacheSpec.

(* ===================================================================== *)
(** ** Concrete inputs of the scenarios *)
(* ===================================================================== *)

Module Scenarios.

(** Scenario S1 of the design. *)
Definition rulesS1 : list Config.Forwarder :=
  [Config.mkForwarder "ts.net" "100.100.100.100";
   Config.mkForwarder "*.corp" "10.0.0.53"].

(** The entries of [dns.TypeToString] for A and AAAA. *)
Definition typeNames (qtype : Z) : string :=
  if qtype =? Msg.TypeA then "A"
  else if qtype =? Msg.TypeAAAA then "AAAA"
  else "".

(** A positive reply to an A query for [name], one answer with the given
    ttl and address. *)
Definition replyA (name : string) (ttl : Z) (ip : Msg.IP) : Msg.Msg :=
  {| Msg.Id := 7; Msg.Response := true; Msg.Rcode := 0;
     Msg.Questions := [Msg.mkQuestion name Msg.TypeA 1];
     Msg.Answer := [Msg.A (Msg.mkHeader name Msg.TypeA ttl) ip] |}.

Definition addr1 : Msg.IP := [93; 184; 216; 34].

(** Scenario S3: a cache for two entries, and three responses whose
    answers live 10, 20 and 30 seconds. *)
Definition cacheS3 : Cache.Cache := Cache.NewCache (5 * Cache.Minute) 2.
Definition msgA : Msg.Msg := replyA "a." 10 addr1.
Definition msgB : Msg.Msg := replyA "b." 20 addr1.
Definition msgC : Msg.Msg := replyA "c." 30 addr1.

(** A cache made with [maxSize = 0]. *)
Definition cacheZero : Cache.Cache := Cache.NewCache (5 * Cache.Minute) 0.

(** The cache of the proxy: [NewCache(5*time.Minute, 10000)]. *)
Definition proxyCache : Cache.Cache := Cache.NewCache (5 * Cache.Minute) 10000.

(** *** Scenario S4: an upstream at [https://filter.example] *)

(** The host of a url of the form [https://host], [https://host/...] or
    [https://host:port...]. *)
Definition cutAt (c : ascii) (s : string) : string :=
  match DoH.IndexByte s c with
  | Some i => GoStrings.take i s
  | None => s
  end.

Definition hostOfHttps (u : string) : option string :=
  if GoStrings.HasPrefix u "https://"
  then Some (cutAt "?" (cutAt ":" (cutAt "/" (GoStrings.drop 8 u))))
  else None.

Definition dotted (ip : Msg.IP) : string :=
  GoStrings.Join (map pretty ip) ".".

Definition upstreamReply : Msg.Msg := replyA "example.com." 300 addr1.

(** A network in which the bootstrap server 1.1.1.1 answers every A
    query with 203.0.113.9, the other bootstrap servers time out, and
    the upstream answers at 203.0.113.9:443 only; the resolver of the
    system has been diverted and resolves nothing. *)
Definition netS4 : DoH.Net :=
  {| DoH.Hostname := hostOfHttps;
     DoH.ParseIP := fun _ => None;
     DoH.IPString := dotted;
     DoH.Fqdn := fun s => if GoStrings.HasSuffix s "." then s else s ++ ".";
     DoH.Exchange := fun q server =>
       if String.eqb server "1.1.1.1:53"
       then inr (replyA "filter.example." 60 [203; 0; 113; 9])
       else inl "i/o timeout";
     DoH.Pack := fun _ => inr "wire-query";
     DoH.Unpack := fun _ => inr upstreamReply;
     DoH.base64url := fun b => b;
     DoH.itoa := pretty;
     DoH.newRequestError := fun _ _ => None;
     DoH.requestAddr := fun u =>
       match hostOfHttps u with Some h => Some (h ++ ":443") | None => None end;
     DoH.roundTrip := fun addr _ =>
       if String.eqb addr "203.0.113.9:443"
       then inr (DoH.mkHttpResponse 200 "wire-reply" None)
       else inl "dial tcp: lookup failed" |}.

(** The same upstream when no bootstrap server answers while the
    resolver of the system still works: a dial of the host name gets
    through. *)
Definition netBootstrapDown : DoH.Net :=
  {| DoH.Hostname := hostOfHttps;
     DoH.ParseIP := fun _ => None;
     DoH.IPString := dotted;
     DoH.Fqdn := fun s => if GoStrings.HasSuffix s "." then s else s ++ ".";
     DoH.Exchange := fun _ _ => inl "i/o timeout";
     DoH.Pack := fun _ => inr "wire-query";
     DoH.Unpack := fun _ => inr upstreamReply;
     DoH.base64url := fun b => b;
     DoH.itoa := pretty;
     DoH.newRequestError := fun _ _ => None;
     DoH.requestAddr := fun u =>
       match hostOfHttps u with Some h => Some (h ++ ":443") | None => None end;
     DoH.roundTrip := fun addr _ =>
       if String.eqb addr "filter.example:443"
       then inr (DoH.mkHttpResponse 200 "wire-reply" None)
       else inl "dial tcp: connection refused" |}.

Definition queryA (name : string) : Msg.Msg :=
  {| Msg.Id := 4242; Msg.Response := false; Msg.Rcode := 0;
     Msg.Questions := [Msg.mkQuestion name Msg.TypeA 1];
     Msg.Answer := [] |}.

(** *** A split-DNS server that answers NXDOMAIN *)

Definition nxdomain (name : string) : Msg.Msg :=
  {| Msg.Id := 4242; Msg.Response := true; Msg.Rcode := Msg.RcodeNameError;
     Msg.Questions := [Msg.mkQuestion name Msg.TypeA 1];
     Msg.Answer := [] |}.

(** As [netS4], with the split-DNS server 10.0.0.53 answering NXDOMAIN
    and the upstream answering NXDOMAIN too. *)
Definition netSplit : DoH.Net :=
  {| DoH.Hostname := hostOfHttps;
     DoH.ParseIP := fun _ => None;
     DoH.IPString := dotted;
     DoH.Fqdn := fun s => if GoStrings.HasSuffix s "." then s else s ++ ".";
     DoH.Exchange := fun q server =>
       if String.eqb server "1.1.1.1:53"
       then inr (replyA "filter.example." 60 [203; 0; 113; 9])
       else if String.eqb server "10.0.0.53:53"
       then inr (nxdomain "nohost.corp.")
       else inl "i/o timeout";
     DoH.Pack := fun _ => inr "wire-query";
     DoH.Unpack := fun _ => inr (nxdomain "ads.example.");
     DoH.base64url := fun b => b;
     DoH.itoa := pretty;
     DoH.newRequestError := fun _ _ => None;
     DoH.requestAddr := fun u =>
       match hostOfHttps u with Some h => Some (h ++ ":443") | None => None end;
     DoH.roundTrip := fun addr _ =>
       if String.eqb addr "203.0.113.9:443"
       then inr (DoH.mkHttpResponse 200 "wire-reply" None)
       else inl "dial tcp: lookup failed" |}.

Definition configS1 : Config.Config :=
  {| Config.Profile := "home";
     Config.ServerURL := "https://filter.example";
     Config.Enabled := true;
     Config.Autostart := false;
     Config.Forwarders := Some rulesS1 |}.

Definition noPassword (profile : string) : string := "".

Definition configFilePath : string := "/root/.config/FilterDNS/config.json".

(** *** Hosts *)

(** What the tools of the scenario hosts keep: whether NetworkManager
    runs, its one active connection with the values of [ipv4.dns] and
    [ipv4.ignore-auto-dns], and the DNS servers set per link through
    [resolvectl]. *)
Record Settings := mkSettings {
  nmActive : bool;
  nmConn : string;
  nmDNS : string;
  nmIgnoreAuto : string;
  linkDNS : list (string * string)
}.

Definition setNM (s : Settings) (dns ignoreAuto : string) : Settings :=
  {| nmActive := nmActive s; nmConn := nmConn s; nmDNS := dns;
     nmIgnoreAuto := ignoreAuto; linkDNS := linkDNS s |}.

Definition setLinks (s : Settings) (links : list (string * string)) : Settings :=
  {| nmActive := nmActive s; nmConn := nmConn s; nmDNS := nmDNS s;
     nmIgnoreAuto := nmIgnoreAuto s; linkDNS := links |}.

Definition otherLinks (iface : string) (s : Settings) : list (string * string) :=
  List.filter (fun l => negb (String.eqb l.1 iface)) (linkDNS s).

Definition argvIs (argv expected : list string) : bool :=
  bool_decide (argv = expected).

(** [systemctl], [nmcli] and [resolvectl] as their manuals describe the
    commands the daemon runs; every other command fails. *)
Definition tools (argv : list string) (s : Settings) : bool * string * Settings :=
  let nl := GoStrings.newline in
  match argv with
  | [a; b; c] =>
      if argvIs argv ["systemctl"; "is-active"; "NetworkManager"]
      then (if nmActive s then (true, "active" ++ nl, s)
            else (false, "inactive" ++ nl, s))
      else if argvIs [a; b] ["resolvectl"; "revert"]
      then (true, "", setLinks s (otherLinks c s))
      else (false, "", s)
  | [a; b; c; d] =>
      if argvIs [a; b] ["resolvectl"; "dns"]
      then (true, "", setLinks s ((c, d) :: otherLinks c s))
      else if argvIs [a; b] ["resolvectl"; "default-route"]
      then (true, "", s)
      else if argvIs [a; b; c] ["nmcli"; "connection"; "up"]
      then (String.eqb d (nmConn s), "", s)
      else (false, "", s)
  | [a; b; c; d; e; f; g] =>
      if argvIs argv ["nmcli"; "-t"; "-f"; "NAME"; "connection"; "show"; "--active"]
      then (true, nmConn s ++ nl, s)
      else if argvIs argv ["nmcli"; "-t"; "-f"; "NAME,DEVICE,STATE";
                           "connection"; "show"; "--active"]
      then (true, nmConn s ++ ":eth0:activated" ++ nl, s)
      else if argvIs [a; b; c; d; e; f]
                     ["nmcli"; "-t"; "-f"; "ipv4.dns"; "connection"; "show"]
      then (String.eqb g (nmConn s), "ipv4.dns:" ++ nmDNS s ++ nl, s)
      else if argvIs [a; b; c; d; e; f]
                     ["nmcli"; "-t"; "-f"; "ipv4.ignore-auto-dns"; "connection"; "show"]
      then (String.eqb g (nmConn s),
            "ipv4.ignore-auto-dns:" ++ nmIgnoreAuto s ++ nl, s)
      else (false, "", s)
  | [a; b; c; name; e; dns; g; ignoreAuto] =>
      if argvIs [a; b; c; e; g]
                ["nmcli"; "connection"; "modify"; "ipv4.dns"; "ipv4.ignore-auto-dns"]
         && String.eqb name (nmConn s)
      then (true, "", setNM s dns ignoreAuto)
      else (false, "Error: unknown connection", s)
  | _ => (false, "", s)
  end.

Definition plainJSON (b : System.DNSBackup) : string := "{ dns_modified: true }".

(** A host without systemd-resolved and without NetworkManager, on which
    every file operation succeeds. *)
Definition hostPlain : System.Host Settings :=
  {| System.exec := tools;
     System.lookPath := fun _ => false;
     System.readlink := fun _ => None;
     System.canWrite := fun _ => true;
     System.canMkdir := fun _ => true;
     System.canRemove := fun _ => true;
     System.canRead := fun _ => true;
     System.clock := 1700000000 * Cache.Second;
     System.marshalBackup := plainJSON;
     System.unmarshalBackup := fun _ => None;
     System.configPath := inr configFilePath;
     System.marshalConfig := fun _ => "{}" |}.

(** The same host with a backup directory that cannot be written. *)
Definition hostNoBackupDir : System.Host Settings :=
  {| System.exec := tools;
     System.lookPath := fun _ => false;
     System.readlink := fun _ => None;
     System.canWrite := fun path => negb (String.eqb path System.backupFile);
     System.canMkdir := fun path => negb (String.eqb path System.backupDir);
     System.canRemove := fun _ => true;
     System.canRead := fun _ => true;
     System.clock := 1700000000 * Cache.Second;
     System.marshalBackup := plainJSON;
     System.unmarshalBackup := fun _ => None;
     System.configPath := inr configFilePath;
     System.marshalConfig := fun _ => "{}" |}.

(** The plain host with a backup file that cannot be removed. *)
Definition hostStickyBackup : System.Host Settings :=
  {| System.exec := tools;
     System.lookPath := fun _ => false;
     System.readlink := fun _ => None;
     System.canWrite := fun _ => true;
     System.canMkdir := fun _ => true;
     System.canRemove := fun path => negb (String.eqb path System.backupFile);
     System.canRead := fun _ => true;
     System.clock := 1700000000 * Cache.Second;
     System.marshalBackup := plainJSON;
     System.unmarshalBackup := fun _ => None;
     System.configPath := inr configFilePath;
     System.marshalConfig := fun _ => "{}" |}.


Definition settingsPlain : Settings :=
  {| nmActive := false; nmConn := ""; nmDNS := ""; nmIgnoreAuto := "no";
     linkDNS := [] |}.


(** The files of a host on which the daemon has not run yet:
    [resolv.conf] holds [nameserver 192.168.1.1], the directories [/var]
    and [/var/lib] are there, the backup directory is not. *)
Definition filesS5 : gmap string string :=
  <["/var" := ""]>
    (<["/var/lib" := ""]>
       {[ System.resolvConf := "nameserver 192.168.1.1" ++ GoStrings.newline ]}).

(** Scenario S5: [resolv.conf] holds [nameserver 192.168.1.1], and there
    is no backup of any kind. *)
Definition worldS5 : System.World Settings :=
  {| System.fs := filesS5; System.os := settingsPlain |}.


(** *** Daemons *)

(** A daemon that is running the proxy of [configS1]. *)
Definition daemonRunning : Daemon.Daemon :=
  {| Daemon.config := configS1;
     Daemon.proxy := Some (Proxy.NewProxy netS4 configS1);
     Daemon.running := true |}.

(** A daemon that is not. *)
Definition daemonStopped : Daemon.Daemon :=
  {| Daemon.config := configS1; Daemon.proxy := None; Daemon.running := false |}.

(** *** A configuration file *)


(** A decoder for the one document of the scenario, the empty object
    [{}], which leaves every field at its zero value. *)
Definition decodeEmptyObject (data : string) : Config.error + Config.Config :=
  if String.eqb data "{}"
  then inr {| Config.Profile := ""; Config.ServerURL := "";
              Config.Enabled := false; Config.Autostart := false;
              Config.Forwarders := None |}
  else inl "invalid character".

End Scenarios.

(* ===================================================================== *)
(** * Theorems *)
(* ===================================================================== *)

(** ** Byte strings *)

Section StringFacts.
Import GoStrings.

Lemma append_cons (c : ascii) (a b : string) :
  String c a ++ b = String c (a ++ b).
Proof. reflexivity. Qed.

Lemma take_drop_string (n : nat) (s : string) : take n s ++ drop n s = s.
Proof.
  revert s; induction n as [|n IH]; intros [|c r]; simpl; try reflexivity.
  rewrite append_cons. f_equal. apply IH.
Qed.

Lemma length_append (a b : string) :
  String.length (a ++ b) = (String.length a + String.length b)%nat.
Proof.
  induction a as [|c a IH]; [reflexivity|].
  rewrite append_cons. simpl. now rewrite IH.
Qed.

Lemma drop_append (a b : string) : drop (String.length a) (a ++ b) = b.
Proof.
  induction a as [|c a IH]; [reflexivity|].
  rewrite append_cons. simpl. exact IH.
Qed.

(** [HasSuffix] decides "ends with". *)
Lemma HasSuffix_iff (s suffix : string) :
  HasSuffix s suffix = true <-> exists pre, s = pre ++ suffix.
Proof.
  unfold HasSuffix. rewrite andb_true_iff, Nat.leb_le, String.eqb_eq. split.
  - intros [_ Hd].
    exists (take (String.length s - String.length suffix) s).
    pose proof (take_drop_string (String.length s - String.length suffix) s) as E.
    rewrite Hd in E. now symmetry.
  - intros [pre ->]. rewrite length_append. split; [lia|].
    replace (String.length pre + String.length suffix - String.length suffix)%nat
      with (String.length pre) by lia.
    apply drop_append.
Qed.
End StringFacts.

(** ** The forwarder matcher *)

Section ForwarderFacts.
Import GoStrings Forwarder ForwarderSpec.

Lemma fold_append_map {A B} (f : A -> B) (l : list A) (acc : list B) :
  fold_left (fun rs x => (rs ++ [f x])%list) l acc = (acc ++ map f l)%list.
Proof.
  revert acc; induction l as [|x l IH]; intros acc; simpl.
  - now rewrite app_nil_r.
  - rewrite IH, <- app_assoc. reflexivity.
Qed.

(** The matcher keeps one rule per forwarder, in the input order. *)
Lemma NewForwarderMatcher_rules (R : list Config.Forwarder) :
  rules (NewForwarderMatcher R) = map ruleOf R.
Proof. unfold NewForwarderMatcher; simpl. now rewrite fold_append_map. Qed.

Lemma pattern_ruleOf (f : Config.Forwarder) :
  pattern (ruleOf f) = normalizedPattern (Config.Domain f).
Proof.
  unfold ruleOf, normalizedPattern; simpl.
  destruct (HasPrefix _ "*."); reflexivity.
Qed.

(** The test both branches of [Match] make is the design's condition. *)
Lemma rule_test_iff (n : string) (f : Config.Forwarder) :
  String.eqb (normalizedName n) (pattern (ruleOf f))
  || HasSuffix (normalizedName n) ("." ++ pattern (ruleOf f)) = true
  <-> qualifies n f.
Proof.
  rewrite orb_true_iff, String.eqb_eq, HasSuffix_iff, pattern_ruleOf.
  unfold qualifies. reflexivity.
Qed.

(** The wildcard flag does not change the test. *)
Lemma matchRules_cons (r : forwarderRule) (rs : list forwarderRule) (d : string) :
  matchRules (r :: rs) d =
  if String.eqb d (pattern r) || HasSuffix d ("." ++ pattern r)
  then server r else matchRules rs d.
Proof. cbn [matchRules]. destruct (isWild r); reflexivity. Qed.

Lemma server_ruleOf (f : Config.Forwarder) : server (ruleOf f) = Config.Server f.
Proof. reflexivity. Qed.

Lemma matchRules_first (R : list Config.Forwarder) (n : string) :
  (exists (i : nat) (f : Config.Forwarder),
      R !! i = Some f /\ qualifies n f
      /\ (forall (j : nat) (g : Config.Forwarder),
            (j < i)%nat -> R !! j = Some g -> ~ qualifies n g)
      /\ matchRules (map ruleOf R) (normalizedName n) = Config.Server f)
  \/ ((forall f, In f R -> ~ qualifies n f)
      /\ matchRules (map ruleOf R) (normalizedName n) = "").
Proof.
  induction R as [|f R IH].
  - right. split; [intros f []| reflexivity].
  - pose proof (rule_test_iff n f) as Hf.
    cbn [map]. rewrite matchRules_cons.
    destruct (String.eqb (normalizedName n) (pattern (ruleOf f))
              || HasSuffix (normalizedName n) ("." ++ pattern (ruleOf f))) eqn:E.
    + left. exists 0%nat, f. repeat split.
      * now apply Hf.
      * intros j g Hj. lia.
    + assert (Hnf : ~ qualifies n f) by (intros H; apply Hf in H; discriminate).
      destruct IH as [(i & g & Hi & Hq & Hfirst & Hm) | [Hnone Hm]].
      * left. exists (S i), g. repeat split; try assumption.
        intros [|j] h Hj Hl; simpl in Hl.
        -- now inversion Hl; subst.
        -- apply (Hfirst j); [lia | assumption].
      * right. split; [|assumption].
        intros h [<- | Hin]; [assumption | now apply Hnone].
Qed.
End ForwarderFacts.

(** C2, as stated, fails: with the rules [ts.net -> 100.100.100.100] and
    [*.corp -> 10.0.0.53] the name [corp] is matched, by the wildcard rule,
    whose pattern without its [*.] prefix equals the name. *)
Lemma Match_corp_is_matched :
  Forwarder.Match (Forwarder.NewForwarderMatcher Scenarios.rulesS1) "corp" <> "".
Proof. vm_compute. discriminate. Qed.

(** C2, amended.  With the rules [ts.net -> 100.100.100.100] and
    [*.corp -> 10.0.0.53], [Match] gives [10.0.0.53] for the name [corp]
    (the pattern of the wildcard rule, stripped of [*.], equals the name),
    [100.100.100.100] for [a.b.ts.net], and no match for [xcorp], which
    ends in [corp] without a dot before it. *)
Theorem Match_scenario_S1 :
  let m := Forwarder.NewForwarderMatcher Scenarios.rulesS1 in
  Forwarder.Match m "corp" = "10.0.0.53"
  /\ Forwarder.Match m "a.b.ts.net" = "100.100.100.100"
  /\ Forwarder.Match m "xcorp" = "".
Proof. repeat split; vm_compute; reflexivity. Qed.

(** C7.  [Match] is a function of the rule set and the name; it returns the
    server of the first rule, in input order, whose normalized pattern
    equals the normalized name or is a suffix of it preceded by a dot, and
    the empty string (no match) when no rule qualifies, as for the empty
    rule set. *)
Theorem Match_first_qualifying_rule (R : list Config.Forwarder) (n : string) :
  ((exists (i : nat) (f : Config.Forwarder),
       R !! i = Some f /\ ForwarderSpec.qualifies n f
       /\ (forall (j : nat) (g : Config.Forwarder),
             (j < i)%nat -> R !! j = Some g -> ~ ForwarderSpec.qualifies n g)
       /\ Forwarder.Match (Forwarder.NewForwarderMatcher R) n = Config.Server f)
   \/ ((forall f, In f R -> ~ ForwarderSpec.qualifies n f)
       /\ Forwarder.Match (Forwarder.NewForwarderMatcher R) n = ""))
  /\ Forwarder.Match (Forwarder.NewForwarderMatcher []) n = "".
Proof.
  split; [|reflexivity].
  unfold Forwarder.Match. rewrite NewForwarderMatcher_rules.
  apply matchRules_first.
Qed.

(** ** The cache *)

Section CacheFacts.
Import Cache.
Variable TypeToString : Z -> string.
Variable rangeOrder : gmap string cacheEntry -> list (string * cacheEntry).

Local Abbreviation cacheKey := (cacheKey TypeToString).
Local Abbreviation Get := (Get TypeToString).
Local Abbreviation Set_ := (Set_ TypeToString rangeOrder).
Local Abbreviation evictOldest := (evictOldest rangeOrder).

Lemma min_loop_comm (l : list Z) (x a : Z) :
  fold_left (fun m y => if y <? m then y else m) l (Z.min x a)
  = Z.min x (fold_left (fun m y => if y <? m then y else m) l a).
Proof.
  revert a; induction l as [|y l IH]; intros a; simpl; [reflexivity|].
  rewrite <- IH. f_equal.
  destruct (Z.ltb_spec y a), (Z.ltb_spec y (Z.min x a)); lia.
Qed.

Lemma min_loop_fold_right (l : list Z) (a : Z) :
  fold_left (fun m y => if y <? m then y else m) l a = fold_right Z.min a l.
Proof.
  revert a; induction l as [|y l IH]; intros a; simpl; [reflexivity|].
  rewrite <- IH, <- min_loop_comm. f_equal.
  destruct (Z.ltb_spec y a); lia.
Qed.

Lemma minAnswerTTL_fold (answer : list Msg.RR) :
  minAnswerTTL answer
  = fold_right Z.min 3600 (map (fun rr => Msg.Ttl (Msg.Header rr)) answer).
Proof.
  unfold minAnswerTTL. rewrite <- min_loop_fold_right.
  generalize 3600. induction answer as [|rr l IH]; intros a; simpl; [reflexivity|].
  apply IH.
Qed.

(** The ttl [Set] computes is the design's formula. *)
Lemma computedTTL_spec (c : Cache) (m : Msg.Msg) :
  computedTTL c m
  = CacheSpec.effectiveTTL (ttl c)
      (map (fun rr => Msg.Ttl (Msg.Header rr)) (Msg.Answer m)).
Proof.
  unfold computedTTL, CacheSpec.effectiveTTL.
  destruct (Msg.Answer m) as [|rr l] eqn:E; [reflexivity|].
  rewrite <- E, minAnswerTTL_fold. rewrite E.
  change (0 <? length (rr :: l))%nat with true. cbv iota.
  set (X := fold_right Z.min 3600 _ * Second). cbn [map].
  destruct (Z.ltb_spec X (ttl c)); lia.
Qed.

Lemma Set_dropped (c : Cache) domain qtype m now :
  computedTTL c m < 10 * Second -> Set_ c domain qtype m now = c.
Proof.
  intros H. unfold Cache.Set_.
  destruct (Z.ltb_spec (computedTTL c m) (10 * Second)); [reflexivity | lia].
Qed.

Lemma Set_lookup (c : Cache) domain qtype m now :
  10 * Second <= computedTTL c m ->
  entries (Set_ c domain qtype m now) !! cacheKey domain qtype
  = Some {| msg := m; expiresAt := now + computedTTL c m |}.
Proof.
  intros H. unfold Cache.Set_.
  destruct (Z.ltb_spec (computedTTL c m) (10 * Second)); [lia|].
  cbn [entries]. apply lookup_insert_eq.
Qed.
End CacheFacts.

(** C5, as stated, fails at the expiry time itself: an answer with ttl 300
    stored at time 0 is still returned by a read at exactly 300 seconds
    ([Get] tests [time.Now().After(expiresAt)], which is strict).  And
    with a default of two hours, an answer that lives two hours is given
    one hour, because [Set] starts its minimum at 3600. *)
Lemma Get_at_expiry_is_a_hit :
  let m := Scenarios.replyA "example.com." 300 Scenarios.addr1 in
  let c := Cache.Set_ Scenarios.typeNames map_to_list Scenarios.proxyCache
             "example.com." Msg.TypeA m 0 in
  Cache.computedTTL Scenarios.proxyCache m = 300 * Cache.Second
  /\ Cache.Get Scenarios.typeNames c "example.com." Msg.TypeA (300 * Cache.Second)
     <> None
  /\ Cache.computedTTL (Cache.NewCache (7200 * Cache.Second) 10000)
       (Scenarios.replyA "example.com." 7200 Scenarios.addr1)
     = 3600 * Cache.Second.
Proof. split; [reflexivity|]. split; [vm_compute; discriminate | reflexivity]. Qed.

(** C5, amended.  The ttl of an insertion is the default ttl when the
    response has no answers, and otherwise the minimum of the default ttl
    and the smallest answer ttl, that one capped at 3600 seconds.  Below 10
    seconds the cache is left as it was.  Otherwise a read of the same
    (name, qtype) up to and including the expiry time returns the
    response, and a read after the expiry time returns a miss. *)
Theorem Set_then_Get
    (TypeToString : Z -> string)
    (rangeOrder : gmap string Cache.cacheEntry -> list (string * Cache.cacheEntry))
    (c : Cache.Cache) (domain : string) (qtype : Z) (m : Msg.Msg) (now now' : Z) :
  let T := Cache.computedTTL c m in
  let c' := Cache.Set_ TypeToString rangeOrder c domain qtype m now in
  T = CacheSpec.effectiveTTL (Cache.ttl c)
        (map (fun rr => Msg.Ttl (Msg.Header rr)) (Msg.Answer m))
  /\ (T < 10 * Cache.Second -> c' = c)
  /\ (10 * Cache.Second <= T ->
      (now' <= now + T -> Cache.Get TypeToString c' domain qtype now' = Some m)
      /\ (now + T < now' -> Cache.Get TypeToString c' domain qtype now' = None)).
Proof.
  cbv zeta. split; [apply computedTTL_spec|]. split; [apply Set_dropped|].
  intros HT. unfold Cache.Get.
  rewrite (Set_lookup TypeToString rangeOrder c domain qtype m now HT).
  cbn [Cache.expiresAt Cache.msg]. split; intros H.
  - destruct (Z.ltb_spec (now + Cache.computedTTL c m) now'); [lia | reflexivity].
  - destruct (Z.ltb_spec (now + Cache.computedTTL c m) now'); [reflexivity | lia].
Qed.

(** Scenario S2 through [Set_then_Get]: ttl 5 is not cached; ttl 300 is a
    hit at 300 seconds and a miss at 301. *)
Lemma Set_then_Get_witness :
  let m5 := Scenarios.replyA "example.com." 5 Scenarios.addr1 in
  let m300 := Scenarios.replyA "example.com." 300 Scenarios.addr1 in
  let set m := Cache.Set_ Scenarios.typeNames map_to_list Scenarios.proxyCache
                 "example.com." Msg.TypeA m 0 in
  set m5 = Scenarios.proxyCache
  /\ Cache.Get Scenarios.typeNames (set m300) "example.com." Msg.TypeA
       (300 * Cache.Second) = Some m300
  /\ Cache.Get Scenarios.typeNames (set m300) "example.com." Msg.TypeA
       (301 * Cache.Second) = None.
Proof.
  cbv zeta. split; [|split].
  - apply (Set_then_Get Scenarios.typeNames map_to_list Scenarios.proxyCache
             "example.com." Msg.TypeA
             (Scenarios.replyA "example.com." 5 Scenarios.addr1) 0 0).
    vm_compute. reflexivity.
  - apply (Set_then_Get Scenarios.typeNames map_to_list Scenarios.proxyCache
             "example.com." Msg.TypeA
             (Scenarios.replyA "example.com." 300 Scenarios.addr1) 0
             (300 * Cache.Second)); vm_compute; discriminate.
  - apply (Set_then_Get Scenarios.typeNames map_to_list Scenarios.proxyCache
             "example.com." Msg.TypeA
             (Scenarios.replyA "example.com." 300 Scenarios.addr1) 0
             (301 * Cache.Second)); vm_compute; try discriminate; reflexivity.
Defined.

Section EvictionFacts.
Import Cache.
Variable TypeToString : Z -> string.
Variable rangeOrder : gmap string cacheEntry -> list (string * cacheEntry).
(** Ranging over a map visits each of its entries once. *)
Hypothesis rangeOrder_perm : forall es, rangeOrder es ≡ₚ map_to_list es.

Local Abbreviation cacheKey := (cacheKey TypeToString).
Local Abbreviation Set_ := (Set_ TypeToString rangeOrder).
Local Abbreviation evictOldest := (evictOldest rangeOrder).
Local Abbreviation reachable := (reachable TypeToString rangeOrder).

Lemma cacheKey_nonempty domain qtype : cacheKey domain qtype <> "".
Proof. unfold Cache.cacheKey. destruct domain; discriminate. Qed.

Lemma rangeOrder_elem (es : gmap string cacheEntry) k e :
  (k, e) ∈ rangeOrder es <-> es !! k = Some e.
Proof. rewrite rangeOrder_perm. apply elem_of_map_to_list. Qed.

(** The loop of [evictOldest], once it holds a key: it ends on an entry
    that expires no later than any entry it has seen. *)
Lemma evict_loop (l : list (string * cacheEntry)) (k0 : string) (t0 : Z) :
  k0 <> "" ->
  (forall k e, (k, e) ∈ l -> k <> "") ->
  forall k t, fold_left evictStep l (k0, t0) = (k, t) ->
  k <> "" /\ t <= t0
  /\ (forall k' e', (k', e') ∈ l -> t <= expiresAt e')
  /\ ((k, t) = (k0, t0) \/ exists e, (k, e) ∈ l /\ t = expiresAt e).
Proof.
  revert k0 t0. induction l as [|[k1 e1] l IH]; intros k0 t0 Hk0 Hl k t Hf.
  - simpl in Hf. inversion Hf; subst.
    split; [assumption|]. split; [lia|]. split; [|now left].
    intros k' e' Hin. inversion Hin.
  - cbn [fold_left] in Hf.
    assert (Hk1 : k1 <> "") by (apply (Hl k1 e1); left).
    assert (Hl' : forall k e, (k, e) ∈ l -> k <> "")
      by (intros k' e' Hin; apply (Hl k' e'); now right).
    assert (Hstep : evictStep (k0, t0) (k1, e1)
                    = if expiresAt e1 <? t0 then (k1, expiresAt e1) else (k0, t0)).
    { unfold evictStep. apply String.eqb_neq in Hk0. now rewrite Hk0. }
    rewrite Hstep in Hf.
    destruct (Z.ltb_spec (expiresAt e1) t0) as [Hlt|Hge].
    + destruct (IH _ _ Hk1 Hl' _ _ Hf) as (Hk & Ht & Hmin & Hsrc).
      split; [assumption|]. split; [lia|]. split.
      * intros k' e' Hin. apply elem_of_cons in Hin as [Heq|Hin].
        -- inversion Heq; subst. assumption.
        -- now apply (Hmin k').
      * right. destruct Hsrc as [Heq | (e & Hin & He)].
        -- inversion Heq; subst. exists e1. split; [left | reflexivity].
        -- exists e. split; [now right | assumption].
    + destruct (IH _ _ Hk0 Hl' _ _ Hf) as (Hk & Ht & Hmin & Hsrc).
      split; [assumption|]. split; [assumption|]. split.
      * intros k' e' Hin. apply elem_of_cons in Hin as [Heq|Hin].
        -- inversion Heq; subst. lia.
        -- now apply (Hmin k').
      * destruct Hsrc as [Heq | (e & Hin & He)]; [now left|].
        right. exists e. split; [now right | assumption].
Qed.

(** [evictOldest] on a map that is not empty and has no empty key
    deletes one entry, and no entry expires before that one. *)
Lemma evictOldest_spec (es : gmap string cacheEntry) :
  es <> ∅ -> es !! "" = None ->
  exists k e,
    es !! k = Some e
    /\ (forall k' e', es !! k' = Some e' -> expiresAt e <= expiresAt e')
    /\ evictOldest es = delete k es.
Proof.
  intros Hne Hkeys. unfold Cache.evictOldest.
  assert (Hl : forall k e, (k, e) ∈ rangeOrder es -> k <> "").
  { intros k e Hin ->. apply rangeOrder_elem in Hin. congruence. }
  destruct (rangeOrder es) as [|[k1 e1] l] eqn:El.
  - exfalso. apply Hne. apply map_to_list_empty_iff.
    apply Permutation_nil_r. rewrite <- El. symmetry. apply rangeOrder_perm.
  - cbn [fold_left]. change (evictStep ("", zeroTime) (k1, e1)) with (k1, expiresAt e1).
    destruct (fold_left evictStep l (k1, expiresAt e1)) as [k t] eqn:Ef.
    assert (Hk1 : k1 <> "") by (apply (Hl k1 e1); left).
    assert (Hl' : forall k e, (k, e) ∈ l -> k <> "")
      by (intros k' e' Hin; apply (Hl k' e'); now right).
    destruct (evict_loop l k1 (expiresAt e1) Hk1 Hl' k t Ef) as (Hk & Ht & Hmin & Hsrc).
    apply String.eqb_neq in Hk as Hkb. rewrite Hkb. cbn [negb].
    assert (Hsrc' : exists e, (k, e) ∈ (k1, e1) :: l /\ t = expiresAt e).
    { destruct Hsrc as [Heq | (e & Hin & He)].
      - inversion Heq; subst. exists e1. split; [left | reflexivity].
      - exists e. split; [now right | assumption]. }
    destruct Hsrc' as (e & Hin & He).
    exists k, e. split; [|split; [|reflexivity]].
    + apply rangeOrder_elem. now rewrite El.
    + intros k' e' Hlk. apply rangeOrder_elem in Hlk. rewrite El in Hlk.
      rewrite <- He. apply elem_of_cons in Hlk as [Heq|Hlk].
      * inversion Heq; subst. assumption.
      * now apply (Hmin k').
Qed.

(** What holds of every cache a program can hold. *)
Definition cacheInv (maxSize0 : Z) (c : Cache) : Prop :=
  maxSize c = maxSize0
  /\ Z.of_nat (size (entries c)) <= maxSize0
  /\ entries c !! "" = None.

Lemma Set_at_capacity (c : Cache) domain qtype m now :
  1 <= maxSize c -> entries c !! "" = None ->
  maxSize c <= Size c -> 10 * Second <= computedTTL c m ->
  exists k e,
    entries c !! k = Some e
    /\ (forall k' e', entries c !! k' = Some e' -> expiresAt e <= expiresAt e')
    /\ entries (Set_ c domain qtype m now)
       = <[cacheKey domain qtype := {| msg := m; expiresAt := now + computedTTL c m |}]>
           (delete k (entries c)).
Proof.
  intros Hmax Hkeys Hfull HT. unfold Size in Hfull.
  assert (Hne : entries c <> ∅).
  { intros E. rewrite E, map_size_empty in Hfull. lia. }
  destruct (evictOldest_spec (entries c) Hne Hkeys) as (k & e & Hk & Hmin & Hev).
  exists k, e. split; [assumption|]. split; [assumption|].
  unfold Cache.Set_.
  destruct (Z.ltb_spec (computedTTL c m) (10 * Second)); [lia|].
  destruct (Z.leb_spec (maxSize c) (Z.of_nat (size (entries c)))); [|lia].
  cbn [entries]. now rewrite Hev.
Qed.

Lemma Set_preserves_inv (maxSize0 : Z) (c : Cache) domain qtype m now :
  1 <= maxSize0 -> cacheInv maxSize0 c ->
  cacheInv maxSize0 (Set_ c domain qtype m now).
Proof.
  intros Hmax (Hms & Hsz & Hkeys).
  destruct (Z.ltb_spec (computedTTL c m) (10 * Second)) as [Hlow|HT].
  { rewrite (Set_dropped TypeToString rangeOrder c domain qtype m now Hlow).
    now repeat split. }
  destruct (Z.leb_spec (maxSize c) (Size c)) as [Hfull|Hroom].
  - destruct (Set_at_capacity c domain qtype m now) as (k & e & Hk & _ & Hset);
      try assumption; [lia|].
    repeat split.
    + unfold Cache.Set_. destruct (computedTTL c m <? 10 * Second); [assumption|].
      reflexivity || assumption.
    + rewrite Hset.
      pose proof (map_size_delete k (entries c)) as Hd. rewrite Hk in Hd.
      destruct (delete k (entries c) !! cacheKey domain qtype) eqn:Elk.
      * rewrite map_size_insert_Some by eauto. lia.
      * rewrite map_size_insert_None by assumption.
        assert (size (entries c) <> 0%nat).
        { intros E0. apply map_size_empty_iff in E0. rewrite E0 in Hk.
          rewrite lookup_empty in Hk. discriminate. }
        lia.
    + rewrite Hset. rewrite lookup_insert_ne by apply cacheKey_nonempty.
      rewrite lookup_delete_ne; [assumption|]. intros ->. congruence.
  - unfold Size in Hroom. unfold Cache.Set_.
    destruct (Z.ltb_spec (computedTTL c m) (10 * Second)); [lia|].
    destruct (Z.leb_spec (maxSize c) (Z.of_nat (size (entries c)))); [lia|].
    repeat split; cbn [entries maxSize].
    + assumption.
    + destruct (entries c !! cacheKey domain qtype) eqn:Elk.
      * rewrite map_size_insert_Some by eauto. lia.
      * rewrite map_size_insert_None by assumption. lia.
    + now rewrite lookup_insert_ne by apply cacheKey_nonempty.
Qed.

Lemma Set_ttl (c : Cache) domain qtype m now :
  ttl (Set_ c domain qtype m now) = ttl c.
Proof. unfold Cache.Set_. now destruct (computedTTL c m <? 10 * Second). Qed.

Lemma Set_maxSize (c : Cache) domain qtype m now :
  maxSize (Set_ c domain qtype m now) = maxSize c.
Proof. unfold Cache.Set_. now destruct (computedTTL c m <? 10 * Second). Qed.

Lemma computedTTL_ttl (c c' : Cache) (m : Msg.Msg) :
  ttl c = ttl c' -> computedTTL c m = computedTTL c' m.
Proof. intros E. unfold computedTTL. now rewrite E. Qed.

(** [Set] below capacity only inserts. *)
Lemma Set_with_room (c : Cache) domain qtype m now :
  10 * Second <= computedTTL c m -> Size c < maxSize c ->
  entries (Set_ c domain qtype m now)
  = <[cacheKey domain qtype := {| msg := m; expiresAt := now + computedTTL c m |}]>
      (entries c).
Proof.
  intros HT Hroom. unfold Size in Hroom. unfold Cache.Set_.
  destruct (Z.ltb_spec (computedTTL c m) (10 * Second)); [lia|].
  destruct (Z.leb_spec (maxSize c) (Z.of_nat (size (entries c)))); [lia|].
  reflexivity.
Qed.

Lemma cacheKey_head_ne c1 r1 c2 r2 qtype :
  c1 <> c2 -> cacheKey (String c1 r1) qtype <> cacheKey (String c2 r2) qtype.
Proof. intros Hne E. unfold Cache.cacheKey in E. inversion E. contradiction. Qed.

(** Scenario S3, for every date [t] of the three insertions. *)
Lemma scenario_S3 (t : Z) :
  let c1 := Set_ Scenarios.cacheS3 "a." Msg.TypeA Scenarios.msgA t in
  let c2 := Set_ c1 "b." Msg.TypeA Scenarios.msgB t in
  let c3 := Set_ c2 "c." Msg.TypeA Scenarios.msgC t in
  entries c3
  = <[cacheKey "b." Msg.TypeA := {| msg := Scenarios.msgB; expiresAt := t + 20 * Second |}]>
      (<[cacheKey "c." Msg.TypeA := {| msg := Scenarios.msgC; expiresAt := t + 30 * Second |}]> ∅).
Proof.
  intros c1 c2 c3.
  set (kA := cacheKey "a." Msg.TypeA). set (kB := cacheKey "b." Msg.TypeA).
  set (kC := cacheKey "c." Msg.TypeA).
  assert (HAB : kA <> kB) by (apply cacheKey_head_ne; discriminate).
  assert (HAC : kA <> kC) by (apply cacheKey_head_ne; discriminate).
  assert (HBC : kB <> kC) by (apply cacheKey_head_ne; discriminate).
  assert (Httl1 : ttl c1 = ttl Scenarios.cacheS3) by apply Set_ttl.
  assert (Httl2 : ttl c2 = ttl Scenarios.cacheS3)
    by (unfold c2; now rewrite Set_ttl).
  assert (Hmax1 : maxSize c1 = 2) by (unfold c1; now rewrite Set_maxSize).
  assert (Hmax2 : maxSize c2 = 2) by (unfold c2; now rewrite Set_maxSize).
  assert (HTA : computedTTL Scenarios.cacheS3 Scenarios.msgA = 10 * Second)
    by (vm_compute; reflexivity).
  assert (HTB : computedTTL c1 Scenarios.msgB = 20 * Second)
    by (rewrite (computedTTL_ttl _ _ _ Httl1); vm_compute; reflexivity).
  assert (HTC : computedTTL c2 Scenarios.msgC = 30 * Second)
    by (rewrite (computedTTL_ttl _ _ _ Httl2); vm_compute; reflexivity).
  assert (E1 : entries c1
               = <[kA := {| msg := Scenarios.msgA; expiresAt := t + 10 * Second |}]> ∅).
  { unfold c1. rewrite Set_with_room.
    - now rewrite HTA.
    - rewrite HTA. lia.
    - vm_compute. reflexivity. }
  assert (S1 : Size c1 = 1).
  { unfold Size. rewrite E1, map_size_insert_None by apply lookup_empty.
    rewrite map_size_empty. reflexivity. }
  assert (E2 : entries c2
               = <[kB := {| msg := Scenarios.msgB; expiresAt := t + 20 * Second |}]>
                   (entries c1)).
  { unfold c2. rewrite Set_with_room.
    - now rewrite HTB.
    - rewrite HTB. unfold Second. lia.
    - rewrite S1, Hmax1. lia. }
  assert (S2 : Size c2 = 2).
  { unfold Size in *. rewrite E2, map_size_insert_None.
    - lia.
    - rewrite E1. rewrite lookup_insert_ne by congruence. apply lookup_empty. }
  destruct (Set_at_capacity c2 "c." Msg.TypeA Scenarios.msgC t)
    as (k & e & Hk & Hmin & Hset).
  { lia. }
  { rewrite E2, E1. rewrite !lookup_insert_ne by apply cacheKey_nonempty.
    apply lookup_empty. }
  { rewrite S2, Hmax2. lia. }
  { rewrite HTC. unfold Second. lia. }
  fold c3 kC in Hset. rewrite Hset, HTC. clear Hset.
  assert (k = kA) as ->.
  { rewrite E2, E1 in Hk, Hmin.
    destruct (decide (k = kA)) as [|HkA]; [assumption|]. exfalso.
    destruct (decide (k = kB)) as [->|HkB].
    - rewrite lookup_insert_eq in Hk. inversion Hk; subst e.
      specialize (Hmin kA {| msg := Scenarios.msgA; expiresAt := t + 10 * Second |}).
      rewrite lookup_insert_ne, lookup_insert_eq in Hmin by congruence.
      specialize (Hmin eq_refl). cbn [expiresAt] in Hmin. unfold Second in Hmin. lia.
    - rewrite !lookup_insert_ne, lookup_empty in Hk by congruence. discriminate. }
  rewrite E2, E1.
  rewrite delete_insert_ne by congruence.
  rewrite delete_insert_eq, delete_empty.
  apply insert_insert_ne. congruence.
Qed.

Lemma reachable_inv (ttl0 maxSize0 : Z) (c : Cache) :
  1 <= maxSize0 -> reachable ttl0 maxSize0 c -> cacheInv maxSize0 c.
Proof.
  intros Hmax Hr. induction Hr as [|c domain qtype m now Hr IH|c now Hr IH|c Hr IH].
  - split; [reflexivity|]. split; [|apply lookup_empty].
    cbn [NewCache entries]. rewrite map_size_empty. lia.
  - now apply Set_preserves_inv.
  - destruct IH as (Hms & Hsz & Hkeys). repeat split; cbn [entries maxSize cleanupTick].
    + assumption.
    + pose proof (map_subseteq_size
                    (filter (fun kv => ~ (expiresAt kv.2 < now)) (entries c))
                    (entries c) (map_filter_subseteq _ _)). lia.
    + apply map_lookup_filter_None. now left.
  - destruct IH as (Hms & Hsz & Hkeys).
    split; [assumption|]. split; [|apply lookup_empty].
    cbn [Clear entries]. rewrite map_size_empty. lia.
Qed.
End EvictionFacts.

(** C6, as stated, fails for a cache made with [maxSize = 0]: [Set] finds
    nothing to evict and stores the entry, so the cache holds one entry
    more than its bound. *)
Lemma cache_of_capacity_zero_overflows :
  let c := Cache.Set_ Scenarios.typeNames map_to_list Scenarios.cacheZero
             "example.com." Msg.TypeA
             (Scenarios.replyA "example.com." 300 Scenarios.addr1) 0 in
  Cache.reachable Scenarios.typeNames map_to_list (5 * Cache.Minute) 0 c
  /\ Cache.maxSize c = 0
  /\ Cache.Size c = 1.
Proof.
  cbv zeta. split; [|split].
  - apply Cache.reach_set. apply Cache.reach_new.
  - reflexivity.
  - vm_compute. reflexivity.
Qed.

(** C6, amended.  For a cache made with [maxSize >= 1], whatever order Go
    ranges over the map in: the number of entries never exceeds [maxSize];
    an insertion at capacity deletes exactly one entry, one that no other
    entry expires before, and then stores the new one.  With
    [maxSize = 2], inserting A (expires t+10 s), B (t+20 s) and C
    (t+30 s) in that order leaves exactly B and C. *)
Theorem cache_capacity_and_eviction
    (TypeToString : Z -> string)
    (rangeOrder : gmap string Cache.cacheEntry -> list (string * Cache.cacheEntry))
    (rangeOrder_perm : forall es, rangeOrder es ≡ₚ map_to_list es) :
  (forall (ttl0 maxSize0 : Z) (c : Cache.Cache),
      1 <= maxSize0 ->
      Cache.reachable TypeToString rangeOrder ttl0 maxSize0 c ->
      Cache.Size c <= maxSize0
      /\ forall domain qtype m now,
          maxSize0 <= Cache.Size c ->
          10 * Cache.Second <= Cache.computedTTL c m ->
          exists k e,
            Cache.entries c !! k = Some e
            /\ (forall k' e', Cache.entries c !! k' = Some e' ->
                              Cache.expiresAt e <= Cache.expiresAt e')
            /\ Cache.entries (Cache.Set_ TypeToString rangeOrder c domain qtype m now)
               = <[Cache.cacheKey TypeToString domain qtype :=
                     {| Cache.msg := m;
                        Cache.expiresAt := now + Cache.computedTTL c m |}]>
                   (delete k (Cache.entries c)))
  /\ (forall t : Z,
        let set c d m := Cache.Set_ TypeToString rangeOrder c d Msg.TypeA m t in
        Cache.entries
          (set (set (set Scenarios.cacheS3 "a." Scenarios.msgA) "b." Scenarios.msgB)
               "c." Scenarios.msgC)
        = <[Cache.cacheKey TypeToString "b." Msg.TypeA :=
              {| Cache.msg := Scenarios.msgB; Cache.expiresAt := t + 20 * Cache.Second |}]>
            (<[Cache.cacheKey TypeToString "c." Msg.TypeA :=
                 {| Cache.msg := Scenarios.msgC; Cache.expiresAt := t + 30 * Cache.Second |}]>
               ∅)).
Proof.
  split.
  - intros ttl0 maxSize0 c Hmax Hr.
    destruct (reachable_inv TypeToString rangeOrder rangeOrder_perm
                ttl0 maxSize0 c Hmax Hr) as (Hms & Hsz & Hkeys).
    split; [exact Hsz|].
    intros domain qtype m now Hfull HT.
    apply (Set_at_capacity TypeToString rangeOrder rangeOrder_perm);
      try assumption; rewrite Hms; assumption.
  - intros t. cbv zeta.
    apply (scenario_S3 TypeToString rangeOrder rangeOrder_perm t).
Qed.

(** The theorem at Go's own table order, on the caches of scenario S3: the
    cache after A and B is full, and the third insertion leaves B and C. *)
Lemma cache_capacity_and_eviction_witness :
  (forall es : gmap string Cache.cacheEntry, map_to_list es ≡ₚ map_to_list es)
  /\ (let set c d m := Cache.Set_ Scenarios.typeNames map_to_list c d Msg.TypeA m 0 in
      Cache.Size (set (set Scenarios.cacheS3 "a." Scenarios.msgA) "b." Scenarios.msgB) <= 2
      /\ Cache.entries
           (set (set (set Scenarios.cacheS3 "a." Scenarios.msgA) "b." Scenarios.msgB)
                "c." Scenarios.msgC)
         = <[Cache.cacheKey Scenarios.typeNames "b." Msg.TypeA :=
               {| Cache.msg := Scenarios.msgB; Cache.expiresAt := 0 + 20 * Cache.Second |}]>
             (<[Cache.cacheKey Scenarios.typeNames "c." Msg.TypeA :=
                  {| Cache.msg := Scenarios.msgC; Cache.expiresAt := 0 + 30 * Cache.Second |}]>
                ∅)).
Proof.
  split; [intros es; reflexivity|].
  pose proof (cache_capacity_and_eviction Scenarios.typeNames map_to_list
                (fun es => reflexivity (map_to_list es))) as [Hbound Hs3].
  cbv zeta. split.
  - apply (Hbound (5 * Cache.Minute) 2); [lia|].
    apply Cache.reach_set. apply Cache.reach_set. apply Cache.reach_new.
  - apply (Hs3 0).
Defined.

(** ** The configuration store *)

(** C9, as stated, fails where the path of the configuration file cannot
    be had: [configPath()] returns the error of [os.UserConfigDir] (no
    home directory is set) or of [os.MkdirAll] (the directory cannot be
    made), so no configuration file exists, and [Load] returns that error
    and no configuration. *)
Lemma Load_fails_without_config_dir :
  Config.Load (inl "neither $XDG_CONFIG_HOME nor $HOME are defined")
    (fun _ => Config.ReadNotExist) Scenarios.decodeEmptyObject
  = inl "neither $XDG_CONFIG_HOME nor $HOME are defined".
Proof. reflexivity. Qed.

(** C9, amended.  When [configPath()] gives the path of the configuration
    file and no file exists there, [Load] returns the default
    configuration (empty profile, the default server url, not enabled, no
    autostart, an empty forwarder list) and no error.  Every
    configuration [Load] returns has a forwarder list that is not nil and a
    server url that is not empty: a nil list read from the file becomes the
    empty list, an empty url the default url, and the other fields are as
    decoded.  [Load] returns an error in three cases and no other:
    [configPath()] fails, the file is there and cannot be read, or its
    content cannot be decoded; the error is the one of that step. *)
Theorem Load_applies_defaults
    (configPath : Config.error + string)
    (ReadFile : string -> Config.readResult)
    (Unmarshal : string -> Config.error + Config.Config) :
  (forall path, configPath = inr path -> ReadFile path = Config.ReadNotExist ->
     Config.Load configPath ReadFile Unmarshal
     = inr {| Config.Profile := ""; Config.ServerURL := Config.DefaultServerURL;
              Config.Enabled := false; Config.Autostart := false;
              Config.Forwarders := Some [] |})
  /\ (forall cfg, Config.Load configPath ReadFile Unmarshal = inr cfg ->
        Config.Forwarders cfg <> None /\ Config.ServerURL cfg <> "")
  /\ (forall path data raw,
        configPath = inr path -> ReadFile path = Config.ReadOk data ->
        Unmarshal data = inr raw ->
        Config.Load configPath ReadFile Unmarshal
        = inr {| Config.Profile := Config.Profile raw;
                 Config.ServerURL := if String.eqb (Config.ServerURL raw) ""
                                     then Config.DefaultServerURL
                                     else Config.ServerURL raw;
                 Config.Enabled := Config.Enabled raw;
                 Config.Autostart := Config.Autostart raw;
                 Config.Forwarders := Some (Config.slice (Config.Forwarders raw)) |})
  /\ (forall err,
        Config.Load configPath ReadFile Unmarshal = inl err
        <-> configPath = inl err
            \/ exists path,
                 configPath = inr path
                 /\ (ReadFile path = Config.ReadError err
                     \/ exists data, ReadFile path = Config.ReadOk data
                                      /\ Unmarshal data = inl err)).
Proof.
  split; [|split; [|split]]; cycle 3.
  - intros err. unfold Config.Load. split.
    + destruct configPath as [e|path]; [intros H; left; congruence|].
      intros H. right. exists path. split; [reflexivity|].
      destruct (ReadFile path) as [data| |e]; [|discriminate|left; congruence].
      right. exists data. split; [reflexivity|].
      destruct (Unmarshal data) as [e|raw]; [congruence|].
      destruct (String.eqb (Config.ServerURL raw) ""), (Config.Forwarders raw);
        discriminate H.
    + intros [->|(path & -> & [->|(data & -> & ->)])]; reflexivity.
  - intros path Hp Hr. unfold Config.Load. rewrite Hp, Hr. reflexivity.
  - intros cfg. unfold Config.Load.
    destruct configPath as [e|path]; [discriminate|].
    destruct (ReadFile path) as [data| |e]; [| |discriminate].
    + destruct (Unmarshal data) as [e|raw]; [discriminate|].
      intros H. inversion H; subst cfg; clear H.
      destruct raw as [pr url en au fw]. cbn.
      destruct (String.eqb_spec url ""), fw; cbn; unfold Config.DefaultServerURL;
        split; congruence.
    + intros H. inversion H; subst cfg. split; discriminate.
  - intros path data raw Hp Hr Hu. unfold Config.Load. rewrite Hp, Hr, Hu.
    destruct raw as [pr url en au fw]. cbn.
    destruct (String.eqb url ""), fw; reflexivity.
Qed.

(** [Load] without a file, and on the file [{}]. *)
Lemma Load_applies_defaults_witness :
  Config.Load (inr Scenarios.configFilePath) (fun _ => Config.ReadNotExist)
    Scenarios.decodeEmptyObject = inr Config.Default
  /\ Config.Load (inr Scenarios.configFilePath) (fun _ => Config.ReadOk "{}")
       Scenarios.decodeEmptyObject
     = inr {| Config.Profile := ""; Config.ServerURL := "http://localhost:8080";
              Config.Enabled := false; Config.Autostart := false;
              Config.Forwarders := Some [] |}.
Proof.
  split.
  - apply (Load_applies_defaults (inr Scenarios.configFilePath)
             (fun _ => Config.ReadNotExist) Scenarios.decodeEmptyObject)
      with (path := Scenarios.configFilePath); reflexivity.
  - apply (proj1 (proj2 (proj2 (Load_applies_defaults (inr Scenarios.configFilePath)
             (fun _ => Config.ReadOk "{}") Scenarios.decodeEmptyObject)))
             Scenarios.configFilePath "{}"
             {| Config.Profile := ""; Config.ServerURL := "";
                Config.Enabled := false; Config.Autostart := false;
                Config.Forwarders := None |}); reflexivity.
Defined.

(** ** The DoH client *)

Section DoHFacts.
Variable net : DoH.Net.

(** With a resolved IP, a dial of the upstream host goes to that IP. *)
Lemma dialAddr_resolved (c : DoH.DoHClient) (addr host port : string) :
  DoH.serverIP c <> "" ->
  DoH.SplitHostPort addr = Some (host, port) ->
  DoH.Hostname net (DoH.serverURL c) = Some host ->
  DoH.dialAddr net c addr = DoH.JoinHostPort (DoH.serverIP c) port.
Proof.
  intros Hip Hsplit Hhost. unfold DoH.dialAddr.
  apply String.eqb_neq in Hip. rewrite Hip, Hsplit, Hhost.
  now rewrite String.eqb_refl.
Qed.

(** Without one, every dial goes out as it came in. *)
Lemma dialAddr_unresolved (c : DoH.DoHClient) (addr : string) :
  DoH.serverIP c = "" -> DoH.dialAddr net c addr = addr.
Proof. intros Hip. unfold DoH.dialAddr. now rewrite Hip. Qed.

(** [Query] has no test of [serverIP]: the request always goes to the
    transport, at the address [dialAddr] gives. *)
Lemma Query_sent (c : DoH.DoHClient) (m : Msg.Msg) (password packed addr : string) :
  DoH.Pack net m = inr packed ->
  DoH.newRequestError net "GET" (DoH.queryURL net c packed) = None ->
  DoH.requestAddr net (DoH.queryURL net c packed) = Some addr ->
  DoH.Query net c m password
  = DoH.receive net (DoH.roundTrip net (DoH.dialAddr net c addr)
                       (DoH.queryRequest net c packed password)).
Proof.
  intros Hpack Hreq Haddr. unfold DoH.Query, DoH.Do. rewrite Hpack, Hreq.
  cbn [DoH.url DoH.queryRequest]. rewrite Haddr. reflexivity.
Qed.
End DoHFacts.

(** C3, as stated, fails when no bootstrap server answered at
    construction: the client keeps an empty [serverIP], a dial of the
    upstream host name is handed to the dialer unchanged (to be resolved by
    the resolver of the system), and [Query] is sent and answered; it does
    not fail. *)
Lemma unresolved_client_dials_the_name :
  let c := DoH.NewDoHClient Scenarios.netBootstrapDown "https://filter.example" "home" in
  DoH.serverIP c = ""
  /\ DoH.Hostname Scenarios.netBootstrapDown (DoH.serverURL c) = Some "filter.example"
  /\ DoH.dialAddr Scenarios.netBootstrapDown c "filter.example:443" = "filter.example:443"
  /\ DoH.Query Scenarios.netBootstrapDown c (Scenarios.queryA "example.com.") ""
     = inr Scenarios.upstreamReply.
Proof. cbv zeta. repeat split; vm_compute; reflexivity. Qed.

(** C3, amended.  While the client holds a resolved IP ([serverIP] is not
    empty), every dial whose target host equals the host name of the
    configured url is rewritten to that IP, with the port of the dial.
    While it holds none, the address is dialed as given.  [Query] sends
    its request through that dial in both cases: no query fails for want
    of a bootstrap resolution. *)
Theorem dial_rewritten_once_resolved (net : DoH.Net) (c : DoH.DoHClient) :
  (forall addr host port,
      DoH.serverIP c <> "" ->
      DoH.SplitHostPort addr = Some (host, port) ->
      DoH.Hostname net (DoH.serverURL c) = Some host ->
      DoH.dialAddr net c addr = DoH.JoinHostPort (DoH.serverIP c) port)
  /\ (forall addr, DoH.serverIP c = "" -> DoH.dialAddr net c addr = addr)
  /\ (forall m password packed addr,
        DoH.Pack net m = inr packed ->
        DoH.newRequestError net "GET" (DoH.queryURL net c packed) = None ->
        DoH.requestAddr net (DoH.queryURL net c packed) = Some addr ->
        DoH.Query net c m password
        = DoH.receive net (DoH.roundTrip net (DoH.dialAddr net c addr)
                             (DoH.queryRequest net c packed password))).
Proof.
  split; [|split].
  - intros addr host port. apply dialAddr_resolved.
  - intros addr. apply dialAddr_unresolved.
  - intros m password packed addr. apply Query_sent.
Qed.

(** Scenario S4: the bootstrap lookup at 1.1.1.1 gives 203.0.113.9, and
    the dial for [filter.example:443] goes to [203.0.113.9:443]. *)
Lemma dial_rewritten_once_resolved_witness :
  let c := DoH.NewDoHClient Scenarios.netS4 "https://filter.example" "home" in
  DoH.serverIP c = "203.0.113.9"
  /\ DoH.dialAddr Scenarios.netS4 c "filter.example:443" = "203.0.113.9:443".
Proof.
  cbv zeta. split; [vm_compute; reflexivity|].
  change "203.0.113.9:443" with (DoH.JoinHostPort "203.0.113.9" "443").
  apply (proj1 (dial_rewritten_once_resolved Scenarios.netS4
                  (DoH.NewDoHClient Scenarios.netS4 "https://filter.example" "home"))
           "filter.example:443" "filter.example" "443").
  - vm_compute. discriminate.
  - vm_compute. reflexivity.
  - vm_compute. reflexivity.
Defined.

(** ** The proxy *)

Section ProxyFacts.
Import Proxy.

Lemma bytesEqual_iff (a b : list Z) : Msg.bytesEqual a b = true <-> a = b.
Proof. unfold Msg.bytesEqual. destruct (decide (a = b)); split; congruence. Qed.

(** [IP.Equal] with [net.IPv4zero] holds of 0.0.0.0 in its two forms. *)
Lemma IPEqual_v4zero (a : Msg.IP) :
  Msg.IPEqual a Msg.IPv4zero = true <-> a = [0; 0; 0; 0] \/ a = Msg.IPv4zero.
Proof.
  unfold Msg.IPEqual. change (length Msg.IPv4zero) with 16%nat. split.
  - destruct (Nat.eqb_spec (length a) 16).
    + rewrite bytesEqual_iff. now right.
    + destruct (Nat.eqb_spec (length a) 4); cbn [andb Nat.eqb].
      * rewrite andb_true_iff, !bytesEqual_iff. intros [_ H]. now left.
      * destruct (length a =? 16)%nat; discriminate.
  - intros [-> | ->]; reflexivity.
Qed.

(** [IP.Equal] with [net.IPv6zero] holds of the sixteen zero bytes
    only. *)
Lemma IPEqual_v6zero (a : Msg.IP) :
  Msg.IPEqual a Msg.IPv6zero = true <-> a = Msg.IPv6zero.
Proof.
  unfold Msg.IPEqual. change (length Msg.IPv6zero) with 16%nat. split.
  - destruct (Nat.eqb_spec (length a) 16).
    + now rewrite bytesEqual_iff.
    + destruct (Nat.eqb_spec (length a) 4); cbn [andb Nat.eqb].
      * rewrite andb_true_iff, !bytesEqual_iff. intros [H _]. discriminate H.
      * destruct (length a =? 16)%nat; discriminate.
  - intros ->. reflexivity.
Qed.

Lemma answersBlocked_iff (answer : list Msg.RR) :
  answersBlocked answer = true
  <-> (exists h a, In (Msg.A h a) answer /\ (a = [0; 0; 0; 0] \/ a = Msg.IPv4zero))
      \/ (exists h a, In (Msg.AAAA h a) answer /\ a = Msg.IPv6zero).
Proof.
  induction answer as [|rr rest IH].
  - split; [discriminate|]. intros [(h & a & [] & _) | (h & a & [] & _)].
  - cbn [answersBlocked]. destruct rr as [h a|h a|h d].
    + destruct (Msg.IPEqual a Msg.IPv4zero) eqn:E.
      * split; [|reflexivity]. intros _. left. exists h, a.
        split; [now left | now apply IPEqual_v4zero].
      * rewrite IH. split.
        -- intros [(h' & a' & Hin & Ha) | (h' & a' & Hin & Ha)].
           ++ left. exists h', a'. split; [now right | assumption].
           ++ right. exists h', a'. split; [now right | assumption].
        -- intros [(h' & a' & [Heq|Hin] & Ha) | (h' & a' & [Heq|Hin] & Ha)].
           ++ injection Heq as <- <-. apply IPEqual_v4zero in Ha. congruence.
           ++ left. eauto.
           ++ discriminate.
           ++ right. eauto.
    + destruct (Msg.IPEqual a Msg.IPv6zero) eqn:E.
      * split; [|reflexivity]. intros _. right. exists h, a.
        split; [now left | now apply IPEqual_v6zero].
      * rewrite IH. split.
        -- intros [(h' & a' & Hin & Ha) | (h' & a' & Hin & Ha)].
           ++ left. exists h', a'. split; [now right | assumption].
           ++ right. exists h', a'. split; [now right | assumption].
        -- intros [(h' & a' & [Heq|Hin] & Ha) | (h' & a' & [Heq|Hin] & Ha)].
           ++ discriminate.
           ++ left. eauto.
           ++ injection Heq as <- <-. apply IPEqual_v6zero in Ha. congruence.
           ++ right. eauto.
    + rewrite IH. split.
      * intros [(h' & a' & Hin & Ha) | (h' & a' & Hin & Ha)].
        -- left. exists h', a'. split; [now right | assumption].
        -- right. exists h', a'. split; [now right | assumption].
      * intros [(h' & a' & [Heq|Hin] & Ha) | (h' & a' & [Heq|Hin] & Ha)];
          try discriminate; [left | right]; eauto.
Qed.

(** [isBlockedResponse] decides the block of the design. *)
Lemma isBlockedResponse_iff (resp : Msg.Msg) :
  isBlockedResponse resp = true <-> ProxySpec.isBlock resp.
Proof.
  unfold isBlockedResponse, ProxySpec.isBlock.
  destruct (Z.eqb_spec (Msg.Rcode resp) Msg.RcodeNameError) as [E|E].
  - split; [now left | reflexivity].
  - rewrite answersBlocked_iff. unfold Msg.RcodeNameError in E.
    change Msg.IPv6zero with [0; 0; 0; 0; 0; 0; 0; 0; 0; 0; 0; 0; 0; 0; 0; 0].
    split; [now right | intros [?|?]; [contradiction | assumption]].
Qed.

Variable net : DoH.Net.
Variable TypeToString : Z -> string.
Variable rangeOrder :
  gmap string Cache.cacheEntry -> list (string * Cache.cacheEntry).
Variable GetPassword : string -> string.

Lemma cacheResponse_blocked p r resp now :
  queriesBlocked (cacheResponse TypeToString rangeOrder p r resp now)
  = queriesBlocked p.
Proof. unfold cacheResponse. now destruct (Msg.Questions r). Qed.

(** The DoH path counts a block, and nothing else. *)
Lemma forwardToDoH_counts (p : Proxy) (r resp : Msg.Msg) (now : Z) :
  DoH.Query net (dohClient p) r (GetPassword (Config.Profile (config p))) = inr resp ->
  let '(p', written) := forwardToDoH net TypeToString rangeOrder GetPassword p r now in
  written = resp
  /\ queriesBlocked p'
     = if isBlockedResponse resp then incr64 (queriesBlocked p) else queriesBlocked p.
Proof.
  intros HQ. unfold forwardToDoH. rewrite HQ.
  split; [reflexivity|].
  destruct (isBlockedResponse resp); cbn [queriesBlocked withBlocked];
    now rewrite cacheResponse_blocked.
Qed.

(** The split-DNS path never touches the counter. *)
Lemma forwardToServer_does_not_count (p : Proxy) (r : Msg.Msg) (server : string)
      (now : Z) :
  queriesBlocked (forwardToServer net TypeToString rangeOrder p r server now).1
  = queriesBlocked p.
Proof.
  unfold forwardToServer. destruct (DoH.Exchange net r _); cbn [fst].
  - reflexivity.
  - apply cacheResponse_blocked.
Qed.
End ProxyFacts.

(** C4 against the code.  A query for [nohost.corp.] is routed by the rule
    [*.corp] to the split-DNS server, whose answer is NXDOMAIN: the answer
    is a block, it is written to the client, and [queriesBlocked] stays 0.
    The same answer from the upstream, for a name no rule matches, moves
    the counter to 1. *)
Theorem split_dns_block_is_not_counted :
  let handle := Proxy.handleQuery Scenarios.netSplit Scenarios.typeNames
                  map_to_list Scenarios.noPassword in
  let p := Proxy.NewProxy Scenarios.netSplit Scenarios.configS1 in
  let viaSplit := handle p (Scenarios.queryA "nohost.corp.") 0 0 in
  let viaDoH := handle p (Scenarios.queryA "ads.example.") 0 0 in
  Forwarder.Match (Proxy.forwarders p) "nohost.corp." = "10.0.0.53"
  /\ viaSplit.2 = Scenarios.nxdomain "nohost.corp."
  /\ ProxySpec.isBlock viaSplit.2
  /\ Proxy.queriesBlocked viaSplit.1 = 0
  /\ Forwarder.Match (Proxy.forwarders p) "ads.example." = ""
  /\ ProxySpec.isBlock viaDoH.2
  /\ Proxy.queriesBlocked viaDoH.1 = 1.
Proof.
  cbv zeta. repeat split; try (vm_compute; reflexivity).
  - left. vm_compute. reflexivity.
  - left. vm_compute. reflexivity.
Qed.



(** ** The resolver of the host *)

Section TraceFacts.
Import System SystemSpec.

Lemma savedFirst_from (saved : bool) (evs : list Event) :
  savedFirst saved evs = true ->
  forall pre ev post,
    evs = (pre ++ ev :: post)%list -> mutatesResolver ev = true ->
    saved = true \/ exists e, In e pre /\ savesBackup e = true.
Proof.
  revert saved. induction evs as [|e evs IH]; intros saved H pre ev post Heq Hmut.
  - destruct pre; discriminate.
  - cbn [savedFirst] in H. apply andb_true_iff in H as [Hhere Hrest].
    destruct pre as [|p pre]; cbn [app] in Heq; injection Heq as <- Hevs.
    + rewrite Hmut in Hhere. cbn in Hhere. now left.
    + destruct (IH _ Hrest pre ev post Hevs Hmut) as [Hs | (x & Hin & Hx)].
      * apply orb_true_iff in Hs as [Hs|Hs]; [now left|].
        right. exists e. split; [now left | assumption].
      * right. exists x. split; [now right | assumption].
Qed.

(** The scan decides the order of backup and mutation. *)
Lemma savedFirst_sound (evs : list Event) :
  savedFirst false evs = true -> backupBeforeMutation evs.
Proof.
  intros H pre ev post Heq Hmut.
  destruct (savedFirst_from false evs H pre ev post Heq Hmut) as [?|?];
    [discriminate | assumption].
Qed.

Lemma clearedLast_from (cleared : bool) (evs : list Event) :
  clearedLast cleared evs = true ->
  (cleared = true -> forall e, In e evs -> mutatesResolver e = false)
  /\ (forall pre ev post,
        evs = (pre ++ ev :: post)%list -> clearsBackup ev = true ->
        forall later, In later post -> mutatesResolver later = false).
Proof.
  revert cleared. induction evs as [|e evs IH]; intros cleared H.
  - split; [intros _ e []|]. intros pre ev post Heq. destruct pre; discriminate.
  - cbn [clearedLast] in H. apply andb_true_iff in H as [Hhere Hrest].
    destruct (IH _ Hrest) as [IHall IHsplit]. split.
    + intros -> x [<-|Hin].
      * cbn in Hhere. now destruct (mutatesResolver e).
      * apply IHall; [reflexivity | assumption].
    + intros pre ev post Heq Hclr later Hin.
      destruct pre as [|p pre]; cbn [app] in Heq; injection Heq as <- Hevs.
      * subst evs. apply IHall; [|assumption]. rewrite Hclr. apply orb_true_r.
      * now apply (IHsplit pre ev post Hevs Hclr).
Qed.

Lemma clearedLast_sound (evs : list Event) :
  clearedLast false evs = true -> clearAfterRestore evs.
Proof. intros H. exact (proj2 (clearedLast_from false evs H)). Qed.

Lemma quiet_sound (evs : list Event) : quiet evs = true -> noMutation evs.
Proof.
  unfold quiet. rewrite forallb_forall. intros H ev Hin.
  specialize (H ev Hin). now destruct (mutatesResolver ev).
Qed.
End TraceFacts.

Section HostFacts.
Import System SystemSpec.
Context {S : Type} (host : Host S).

(** *** The backup directory *)

(** The descent makes directories and nothing else: its events are
    [Mkdir]s, the tools are left alone, and so is every path that is not
    one of the directories. *)
Lemma mkdirs_shape (dirs : list string) (w : World S) :
  exists r m e,
    mkdirs host dirs w = (r, {| fs := m; os := os w |}, e)
    /\ forallb isMkdir e = true
    /\ (forall p, ~ In p dirs -> m !! p = fs w !! p).
Proof.
  revert w. induction dirs as [|dir rest IH]; intros w.
  - exists None, (fs w), []. destruct w; cbn. auto.
  - cbn [mkdirs]. unfold bind, exists_, Mkdir_.
    destruct (bool_decide (is_Some (fs w !! dir))).
    + destruct (IH w) as (r & m & e & E & He & Hm). rewrite E.
      exists r, m, e. cbn [app]. split; [reflexivity|]. split; [exact He|].
      intros p Hp. apply Hm. intros Hin. apply Hp. now right.
    + destruct (canMkdir host dir).
      * destruct (IH {| fs := <[dir := ""]> (fs w); os := os w |})
          as (r & m & e & E & He & Hm).
        rewrite E. cbn [os fs] in *. exists r, m, (Mkdir dir true :: e).
        cbn [app]. split; [reflexivity|]. split; [exact He|].
        intros p Hp. rewrite Hm by (intros Hin; apply Hp; now right).
        apply lookup_insert_ne. intros ->. apply Hp. now left.
      * exists (Some "permission denied"), (fs w), [Mkdir dir false].
        destruct w; cbn. auto.
Qed.

(** So [backupFilePath()] returns the path of the backup file, and what
    it does on the way is the making of directories.  Where the
    directory is there it does nothing. *)
Lemma backupFilePath_shape (w : World S) :
  exists m e,
    backupFilePath host w = (backupFile, {| fs := m; os := os w |}, e)
    /\ forallb isMkdir e = true
    /\ (forall p, ~ In p (ancestors backupDir) -> m !! p = fs w !! p)
    /\ (is_Some (fs w !! backupDir) -> m = fs w /\ e = []).
Proof.
  unfold backupFilePath, MkdirAll, bind, ret, exists_.
  destruct (bool_decide (is_Some (fs w !! backupDir))) eqn:There.
  - exists (fs w), []. destruct w; cbn. auto.
  - destruct (mkdirs_shape (ancestors backupDir) w) as (r & m & e & E & He & Hm).
    rewrite E. exists m, e. rewrite !app_nil_r. split; [reflexivity|].
    split; [exact He|]. split; [exact Hm|].
    intros H. apply bool_decide_eq_false_1 in There. contradiction.
Qed.

(** The scans of a trace pass over the making of directories. *)
Lemma savedFirst_mkdir (saved : bool) (e l : list Event) :
  forallb isMkdir e = true -> savedFirst saved (e ++ l) = savedFirst saved l.
Proof.
  intros He. induction e as [|ev e IH]; [reflexivity|].
  cbn [forallb] in He. apply andb_true_iff in He as [Hev He].
  destruct ev; try discriminate. cbn. rewrite orb_false_r. now apply IH.
Qed.

Lemma clearedLast_mkdir (cleared : bool) (e l : list Event) :
  forallb isMkdir e = true -> clearedLast cleared (e ++ l) = clearedLast cleared l.
Proof.
  intros He. induction e as [|ev e IH]; [reflexivity|].
  cbn [forallb] in He. apply andb_true_iff in He as [Hev He].
  destruct ev; try discriminate. cbn. rewrite andb_false_r, orb_false_r.
  now apply IH.
Qed.

Lemma quiet_mkdir (e l : list Event) :
  forallb isMkdir e = true -> quiet (e ++ l) = quiet l.
Proof.
  intros He. induction e as [|ev e IH]; [reflexivity|].
  cbn [forallb] in He. apply andb_true_iff in He as [Hev He].
  destruct ev; try discriminate. cbn. now apply IH.
Qed.

Lemma inert_mkdir (e l : list Event) :
  forallb isMkdir e = true -> inert (e ++ l) = inert l.
Proof.
  intros He. induction e as [|ev e IH]; [reflexivity|].
  cbn [forallb] in He. apply andb_true_iff in He as [Hev He].
  destruct ev; try discriminate. cbn. now apply IH.
Qed.

Lemma savedFirst_cons (saved : bool) (ev : Event) (l : list Event) :
  savedFirst saved (ev :: l)
  = (negb (mutatesResolver ev) || saved) && savedFirst (saved || savesBackup ev) l.
Proof. reflexivity. Qed.

Lemma clearedLast_cons (cleared : bool) (ev : Event) (l : list Event) :
  clearedLast cleared (ev :: l)
  = negb (cleared && mutatesResolver ev) && clearedLast (cleared || clearsBackup ev) l.
Proof. reflexivity. Qed.

Lemma quiet_cons (ev : Event) (l : list Event) :
  quiet (ev :: l) = negb (mutatesResolver ev) && quiet l.
Proof. reflexivity. Qed.

(** Lay a computation open: the monad and the primitives give way to the
    answers of the host, which are then taken case by case. *)
Ltac open_host :=
  repeat (progress (cbn [firstPresent];
                    unfold bind, ret, exists_, ReadFile, WriteFile_, Remove_, run,
                      SaveBackup, ClearBackup, LoadBackup, isNetworkManager,
                      getDefaultInterface, getNetworkManagerDNS;
                    cbv beta)).

Ltac host_split :=
  match goal with
  | |- context [backupFilePath host ?w] =>
      let m := fresh "m" in let e := fresh "e" in
      let E := fresh "E" in let Hmk := fresh "Hmk" in
      let Hsame := fresh "Hsame" in let Hthere := fresh "Hthere" in
      destruct (backupFilePath_shape w) as (m & e & E & Hmk & Hsame & Hthere);
      rewrite E; clear E Hthere
  | |- context [exec host ?a ?s] =>
      let ok := fresh "ok" in let out := fresh "out" in let s' := fresh "s'" in
      destruct (exec host a s) as [[ok out] s'] eqn:?
  | |- context [canWrite host ?p] => destruct (canWrite host p) eqn:?
  | |- context [canRead host ?p] => destruct (canRead host p) eqn:?
  | |- context [canRemove host ?p] => destruct (canRemove host p) eqn:?
  | |- context [lookPath host ?p] => destruct (lookPath host p) eqn:?
  | |- context [unmarshalBackup host ?d] => destruct (unmarshalBackup host d) eqn:?
  | |- context [defaultRoute ?l] => destruct (defaultRoute l) eqn:?
  | |- context [@lookup _ _ (gmap string string) _ ?p ?m] =>
      destruct (@lookup _ _ (gmap string string) _ p m) eqn:?
  | |- context [bool_decide ?P] => destruct (bool_decide P) eqn:?
  | |- context [match ?x with Some _ => _ | None => _ end] => destruct x eqn:?
  | |- context [if ?b then _ else _] => destruct b eqn:?
  end.

Ltac host_cases :=
  repeat (cbn [fst snd fs os app events value after negb andb orb];
          host_split);
  cbn [fst snd fs os app events value after negb andb orb].

(** A scan of the trace the goal shows. *)
Ltac scan_done :=
  rewrite <- ?app_assoc; cbn [app];
  repeat first [ rewrite savedFirst_mkdir by assumption
               | rewrite clearedLast_mkdir by assumption
               | rewrite quiet_mkdir by assumption
               | rewrite savedFirst_cons
               | rewrite clearedLast_cons
               | rewrite quiet_cons ];
  reflexivity.

Ltac trace_done := apply savedFirst_sound || apply clearedLast_sound
                    || apply quiet_sound.

(** After a success the goal shows the files; the backup is among them. *)
Ltac exists_done :=
  intros; try discriminate; unfold backupExists; cbn [fs];
  rewrite ?lookup_insert_ne by discriminate;
  rewrite ?lookup_insert_eq; eauto.

Ltac absent_done :=
  intros; try discriminate; unfold backupAbsent; cbn [fs];
  first [assumption | apply lookup_delete_eq | congruence].

Lemma setDNSSystemdResolved_order (server : string) (w : World S) :
  savedFirst false (events (setDNSSystemdResolved host server w)) = true.
Proof. unfold setDNSSystemdResolved. open_host. host_cases; scan_done. Qed.

Lemma setDNSSystemdResolved_saved (server : string) (w : World S) :
  value (setDNSSystemdResolved host server w) = None ->
  backupExists (after (setDNSSystemdResolved host server w)).
Proof.
  unfold setDNSSystemdResolved. open_host. host_cases; exists_done.
Qed.

Lemma setDNSNetworkManager_order (server : string) (w : World S) :
  savedFirst false (events (setDNSNetworkManager host server w)) = true.
Proof. unfold setDNSNetworkManager. open_host. host_cases; scan_done. Qed.

Lemma setDNSNetworkManager_saved (server : string) (w : World S) :
  value (setDNSNetworkManager host server w) = None ->
  backupExists (after (setDNSNetworkManager host server w)).
Proof.
  unfold setDNSNetworkManager. open_host. host_cases; exists_done.
Qed.

Lemma setDNSResolvConf_order (server : string) (w : World S) :
  canWrite host backupFile = true ->
  savedFirst false (events (setDNSResolvConf host server w)) = true.
Proof.
  intros Hw. unfold setDNSResolvConf. open_host. rewrite ?Hw.
  host_cases; try congruence; scan_done.
Qed.

Lemma setDNSResolvConf_saved (server : string) (w : World S) :
  canWrite host backupFile = true ->
  value (setDNSResolvConf host server w) = None ->
  backupExists (after (setDNSResolvConf host server w)).
Proof.
  intros Hw. unfold setDNSResolvConf. open_host. rewrite ?Hw.
  host_cases; try congruence; exists_done.
Qed.
(** On the two paths that test the result of [SaveBackup], a backup that
    cannot be written stops [set_dns] before anything is mutated. *)
Lemma setDNSSystemdResolved_fails_closed (server : string) (w : World S) :
  canWrite host backupFile = false ->
  value (setDNSSystemdResolved host server w) <> None
  /\ noMutation (events (setDNSSystemdResolved host server w)).
Proof.
  intros Hw. unfold setDNSSystemdResolved. open_host.
  host_cases; try congruence; (split; [discriminate | trace_done; scan_done]).
Qed.

Lemma setDNSNetworkManager_fails_closed (server : string) (w : World S) :
  canWrite host backupFile = false ->
  value (setDNSNetworkManager host server w) <> None
  /\ noMutation (events (setDNSNetworkManager host server w)).
Proof.
  intros Hw. unfold setDNSNetworkManager. open_host.
  host_cases; try congruence; (split; [discriminate | trace_done; scan_done]).
Qed.

Lemma savedFirst_app_inert (saved : bool) (e1 e2 : list Event) :
  inert e1 = true -> savedFirst saved e2 = true ->
  savedFirst saved (e1 ++ e2) = true.
Proof.
  intros H1 H2. induction e1 as [|ev e1 IH]; [exact H2|].
  cbn [inert forallb] in H1. apply andb_true_iff in H1 as [Hev H1].
  cbn [app savedFirst]. destruct (mutatesResolver ev), (savesBackup ev);
    try discriminate. rewrite orb_false_r. cbn [negb orb andb]. now apply IH.
Qed.

Lemma clearedLast_app_inert (e1 e2 : list Event) :
  inert e1 = true -> clearedLast false e2 = true ->
  clearedLast false (e1 ++ e2) = true.
Proof.
  intros H1 H2. induction e1 as [|ev e1 IH]; [exact H2|].
  cbn [inert forallb] in H1. apply andb_true_iff in H1 as [Hev H1].
  cbn [app clearedLast]. destruct (mutatesResolver ev), (clearsBackup ev);
    try discriminate; try (destruct (savesBackup ev); discriminate).
  cbn [negb orb andb]. now apply IH.
Qed.

(** The probe for NetworkManager runs at most [systemctl is-active] and
    leaves the files alone. *)
Lemma isNetworkManager_inert (w : World S) :
  inert (events (isNetworkManager host w)) = true
  /\ fs (after (isNetworkManager host w)) = fs w.
Proof. open_host. host_cases; split; reflexivity. Qed.

Lemma value_bind {A B} (c : M S A) (k : A -> M S B) (w : World S) :
  value (bind c k w) = value (k (value (c w)) (after (c w))).
Proof.
  unfold bind, value, after. destruct (c w) as [[a w1] e1].
  cbn [fst snd]. now destruct (k a w1) as [[b w2] e2].
Qed.

Lemma after_bind {A B} (c : M S A) (k : A -> M S B) (w : World S) :
  after (bind c k w) = after (k (value (c w)) (after (c w))).
Proof.
  unfold bind, value, after. destruct (c w) as [[a w1] e1].
  cbn [fst snd]. now destruct (k a w1) as [[b w2] e2].
Qed.

Lemma events_bind {A B} (c : M S A) (k : A -> M S B) (w : World S) :
  events (bind c k w)
  = (events (c w) ++ events (k (value (c w)) (after (c w))))%list.
Proof.
  unfold bind, value, after, events. destruct (c w) as [[a w1] e1].
  cbn [fst snd]. now destruct (k a w1) as [[b w2] e2].
Qed.

Lemma SetDNS_order (server : string) (w : World S) :
  canWrite host backupFile = true ->
  savedFirst false (events (SetDNS host server w)) = true.
Proof.
  intros Hw. unfold SetDNS, setDNS.
  destruct (isSystemdResolved host); [apply setDNSSystemdResolved_order|].
  rewrite events_bind. apply savedFirst_app_inert; [apply isNetworkManager_inert|].
  destruct (value (isNetworkManager host w));
    [apply setDNSNetworkManager_order | now apply setDNSResolvConf_order].
Qed.

Lemma SetDNS_saved (server : string) (w : World S) :
  canWrite host backupFile = true ->
  value (SetDNS host server w) = None ->
  backupExists (after (SetDNS host server w)).
Proof.
  intros Hw. unfold SetDNS, setDNS.
  destruct (isSystemdResolved host); [apply setDNSSystemdResolved_saved|].
  rewrite value_bind, after_bind.
  destruct (value (isNetworkManager host w));
    [apply setDNSNetworkManager_saved | now apply setDNSResolvConf_saved].
Qed.

Lemma resetDNSSystemdResolved_order (w : World S) :
  clearedLast false (events (resetDNSSystemdResolved host w)) = true.
Proof. unfold resetDNSSystemdResolved. open_host. host_cases; scan_done. Qed.

Lemma resetDNSSystemdResolved_cleared (w : World S) :
  canRemove host backupFile = true ->
  value (resetDNSSystemdResolved host w) = None ->
  backupAbsent (after (resetDNSSystemdResolved host w)).
Proof.
  intros Hr. unfold resetDNSSystemdResolved. open_host.
  host_cases; absent_done.
Qed.

Lemma resetDNSNetworkManager_order (w : World S) :
  clearedLast false (events (resetDNSNetworkManager host w)) = true.
Proof.
  unfold resetDNSNetworkManager, restoredValues. open_host.
  host_cases; scan_done.
Qed.

Lemma resetDNSNetworkManager_cleared (w : World S) :
  canRemove host backupFile = true ->
  value (resetDNSNetworkManager host w) = None ->
  backupAbsent (after (resetDNSNetworkManager host w)).
Proof.
  intros Hr. unfold resetDNSNetworkManager, restoredValues. open_host.
  host_cases; absent_done.
Qed.

Lemma resetDNSResolvConf_order (w : World S) :
  clearedLast false (events (resetDNSResolvConf host w)) = true.
Proof. unfold resetDNSResolvConf. open_host. host_cases; scan_done. Qed.

Lemma resetDNSResolvConf_cleared (w : World S) :
  canRemove host backupFile = true ->
  value (resetDNSResolvConf host w) = None ->
  backupAbsent (after (resetDNSResolvConf host w)).
Proof.
  intros Hr. unfold resetDNSResolvConf. open_host.
  host_cases; absent_done.
Qed.

Lemma ResetDNS_order (w : World S) :
  clearedLast false (events (ResetDNS host w)) = true.
Proof.
  unfold ResetDNS, resetDNS.
  destruct (isSystemdResolved host); [apply resetDNSSystemdResolved_order|].
  rewrite events_bind. apply clearedLast_app_inert; [apply isNetworkManager_inert|].
  destruct (value (isNetworkManager host w));
    [apply resetDNSNetworkManager_order | apply resetDNSResolvConf_order].
Qed.

Lemma ResetDNS_cleared (w : World S) :
  canRemove host backupFile = true ->
  value (ResetDNS host w) = None ->
  backupAbsent (after (ResetDNS host w)).
Proof.
  intros Hr. unfold ResetDNS, resetDNS.
  destruct (isSystemdResolved host); [now apply resetDNSSystemdResolved_cleared|].
  rewrite value_bind, after_bind.
  destruct (value (isNetworkManager host w));
    [now apply resetDNSNetworkManager_cleared | now apply resetDNSResolvConf_cleared].
Qed.
End HostFacts.

Section NoBackupFacts.
Import System SystemSpec.
Context {S : Type} (host : Host S).





Lemma filesKept_fs (w w1 w1' : World S) :
  fs w1' = fs w1 -> filesKept w w1 -> filesKept w w1'.
Proof. intros E [H T]. split; intros; rewrite E; auto. Qed.













End NoBackupFacts.



(** C1, as stated, fails on a host that falls back to [/etc/resolv.conf]
    and whose backup directory cannot be made or written: [setDNSResolvConf]
    drops the error of [SaveBackup], overwrites [resolv.conf] and reports
    success, and no backup file exists.  It fails too where the backup
    file cannot be removed: [reset_dns] drops the error of [ClearBackup]
    and reports success while the file is still there. *)
Lemma set_dns_succeeds_without_backup :
  let r := System.SetDNS Scenarios.hostNoBackupDir "127.0.0.1" Scenarios.worldS5 in
  System.value r = None
  /\ System.fs (System.after r) !! System.backupFile = None
  /\ System.fs (System.after r) !! System.resolvConf
     = Some ("# Generated by FilterDNS Client" ++ GoStrings.newline
             ++ "nameserver 127.0.0.1" ++ GoStrings.newline)
  /\ ~ SystemSpec.backupBeforeMutation (System.events r)
  /\ (let diverted := System.after
                         (System.SetDNS Scenarios.hostStickyBackup "127.0.0.1"
                            Scenarios.worldS5) in
      let r' := System.ResetDNS Scenarios.hostStickyBackup diverted in
      System.value r' = None
      /\ System.fs (System.after r') !! System.backupFile
         = Some "{ dns_modified: true }").
Proof.
  cbv zeta. split; [vm_compute; reflexivity|].
  split; [vm_compute; reflexivity|]. split; [vm_compute; reflexivity|].
  split; [|split; vm_compute; reflexivity].
  intros H.
  destruct (H [System.WriteFile System.resolvConfBackup
                 ("nameserver 192.168.1.1" ++ GoStrings.newline) true;
               System.Mkdir System.backupDir false;
               System.WriteFile System.backupFile "{ dns_modified: true }" false]
              (System.WriteFile System.resolvConf
                 ("# Generated by FilterDNS Client" ++ GoStrings.newline
                  ++ "nameserver 127.0.0.1" ++ GoStrings.newline) true)
              []) as (saved & Hin & Hsaved).
  - vm_compute. reflexivity.
  - reflexivity.
  - destruct Hin as [<- | [<- | [<- | []]]]; vm_compute in Hsaved; discriminate.
Qed.

(** C1, amended.  Whenever the backup file can be written, [set_dns]
    writes it before it mutates the resolver, and after a successful
    [set_dns] the backup file exists.  On the systemd-resolved and
    NetworkManager paths this holds without the proviso, because a backup
    that cannot be written makes [set_dns] fail before any mutation.
    [reset_dns] tries to remove the backup only after its last restoration
    step, and after a successful [reset_dns] no backup file exists,
    provided the removal itself is not refused (its error is dropped). *)
Theorem backup_written_first_and_cleared_last
    {S : Type} (host : System.Host S) (w : System.World S) (server : string) :
  (System.canWrite host System.backupFile = true ->
     SystemSpec.backupBeforeMutation (System.events (System.SetDNS host server w))
     /\ (System.value (System.SetDNS host server w) = None ->
         SystemSpec.backupExists (System.after (System.SetDNS host server w))))
  /\ (SystemSpec.backupBeforeMutation
        (System.events (System.setDNSSystemdResolved host server w))
      /\ (System.value (System.setDNSSystemdResolved host server w) = None ->
          SystemSpec.backupExists (System.after (System.setDNSSystemdResolved host server w)))
      /\ (System.canWrite host System.backupFile = false ->
          System.value (System.setDNSSystemdResolved host server w) <> None
          /\ SystemSpec.noMutation
               (System.events (System.setDNSSystemdResolved host server w))))
  /\ (SystemSpec.backupBeforeMutation
        (System.events (System.setDNSNetworkManager host server w))
      /\ (System.value (System.setDNSNetworkManager host server w) = None ->
          SystemSpec.backupExists (System.after (System.setDNSNetworkManager host server w)))
      /\ (System.canWrite host System.backupFile = false ->
          System.value (System.setDNSNetworkManager host server w) <> None
          /\ SystemSpec.noMutation
               (System.events (System.setDNSNetworkManager host server w))))
  /\ SystemSpec.clearAfterRestore (System.events (System.ResetDNS host w))
  /\ (System.value (System.ResetDNS host w) = None ->
      System.canRemove host System.backupFile = true ->
      SystemSpec.backupAbsent (System.after (System.ResetDNS host w))).
Proof.
  split; [|split; [|split; [|split]]].
  - intros Hw. split.
    + apply savedFirst_sound. now apply SetDNS_order.
    + now apply SetDNS_saved.
  - split; [apply savedFirst_sound, setDNSSystemdResolved_order|].
    split; [apply setDNSSystemdResolved_saved|].
    apply setDNSSystemdResolved_fails_closed.
  - split; [apply savedFirst_sound, setDNSNetworkManager_order|].
    split; [apply setDNSNetworkManager_saved|].
    apply setDNSNetworkManager_fails_closed.
  - apply clearedLast_sound, ResetDNS_order.
  - intros Hv Hr. now apply ResetDNS_cleared.
Qed.

(** Scenario S5, up to the kill and from the restart: after [set_dns] the
    backup exists; [reset_dns] from that world succeeds, leaves no backup,
    and [resolv.conf] names 192.168.1.1 again. *)
Lemma backup_written_first_and_cleared_last_witness :
  let diverted := System.after
                    (System.SetDNS Scenarios.hostPlain "127.0.0.1" Scenarios.worldS5) in
  SystemSpec.backupExists diverted
  /\ SystemSpec.backupAbsent (System.after (System.ResetDNS Scenarios.hostPlain diverted))
  /\ System.fs (System.after (System.ResetDNS Scenarios.hostPlain diverted))
       !! System.resolvConf
     = Some ("nameserver 192.168.1.1" ++ GoStrings.newline).
Proof.
  cbv zeta. split; [|split].
  - apply (backup_written_first_and_cleared_last Scenarios.hostPlain
             Scenarios.worldS5 "127.0.0.1"); reflexivity.
  - apply (backup_written_first_and_cleared_last Scenarios.hostPlain
             (System.after
                (System.SetDNS Scenarios.hostPlain "127.0.0.1" Scenarios.worldS5))
             "127.0.0.1"); vm_compute; reflexivity.
  - vm_compute. reflexivity.
Defined.




(** ** The daemon *)

(** Away from the two cases of C10 the operations do act: [enable] on a
    stopped daemon with a profile starts a proxy and diverts the resolver,
    [disable] on a running one stops the proxy and restores. *)
Lemma enable_disable_act :
  let on := Daemon.enable Scenarios.hostPlain Scenarios.netS4
              Scenarios.daemonStopped Scenarios.worldS5 in
  Daemon.running (System.value on).2 = true
  /\ hd_error (System.events on) = Some System.ProxyStart
  /\ let off := Daemon.disable Scenarios.hostPlain
                  (System.value on).2 (System.after on) in
     Daemon.running (System.value off).2 = false
     /\ hd_error (System.events off) = Some System.ProxyStop
     /\ System.fs (System.after off) !! System.resolvConf
        = Some ("nameserver 192.168.1.1" ++ GoStrings.newline).
Proof. cbv zeta. repeat split; vm_compute; reflexivity. Qed.

(** C10.  [enable] on a daemon that is running, and [disable] on one that
    is not, return success at once and change nothing: the daemon (its
    proxy included) and the world are as before, and no event is caused,
    so no proxy is started or stopped, no tool is run, and no file, the
    configuration file included, is written. *)
Theorem enable_disable_idempotent
    {S : Type} (host : System.Host S) (net : DoH.Net)
    (d : Daemon.Daemon) (w : System.World S) :
  (Daemon.running d = true ->
   Daemon.enable host net d w = ((None, d), w, []))
  /\ (Daemon.running d = false ->
      Daemon.disable host d w = ((None, d), w, [])).
Proof.
  split; intros Hr.
  - unfold Daemon.enable. rewrite Hr. reflexivity.
  - unfold Daemon.disable. rewrite Hr. reflexivity.
Qed.

(** The two cases on the host of scenario S5. *)
Lemma enable_disable_idempotent_witness :
  Daemon.enable Scenarios.hostPlain Scenarios.netS4
    Scenarios.daemonRunning Scenarios.worldS5
  = ((None, Scenarios.daemonRunning), Scenarios.worldS5, [])
  /\ Daemon.disable Scenarios.hostPlain
       Scenarios.daemonStopped Scenarios.worldS5
     = ((None, Scenarios.daemonStopped), Scenarios.worldS5, []).
Proof.
  split.
  - apply (enable_disable_idempotent Scenarios.hostPlain Scenarios.netS4
             Scenarios.daemonRunning Scenarios.worldS5). reflexivity.
  - apply (enable_disable_idempotent Scenarios.hostPlain Scenarios.netS4
             Scenarios.daemonStopped Scenarios.worldS5). reflexivity.
Defined.
